(** * fetch_bc_date: fetch Business Central tables, export one workbook

    A shallow embedding of [src/fetch_bc_date.py].  A Python [str] is a
    [string], one [ascii] per character; text outside that range only occurs
    in log and summary literals, whose length the program never takes.  The
    dict of staged sheets is a [gmap]: what is proved of it is about its keys
    and its size.  A decoded JSON object keeps the order of its keys, which
    gives a table the order of its columns, and is an association list. *)

From Stdlib Require Import Ascii String List ZArith Lia DecimalString.
From stdpp Require Import base decidable option list strings gmap fin_maps.

Local Open Scope string_scope.
Local Open Scope list_scope.
Set Warnings "-register-all".
Set Default Proof Using "Type".

(** ** Python strings *)

Module PyStr.

Definition chars (s : string) : list ascii := list_ascii_of_string s.

(** [''.join(cs)] for a sequence of one-character strings. *)
Definition join (cs : list ascii) : string := string_of_list_ascii cs.

(** [s[:n]] *)
Definition slice_to (n : nat) (s : string) : string := String.substring 0 n s.

(** [s.rstrip(set)]: drop the longest suffix made of characters of [set]. *)
Fixpoint rstrip (set : list ascii) (s : string) : string :=
  match s with
  | EmptyString => EmptyString
  | String c s' =>
      match rstrip set s' with
      | EmptyString =>
          if bool_decide (c ∈ set) then EmptyString else String c EmptyString
      | r => String c r
      end
  end.

Definition is_upper (c : ascii) : bool :=
  (65 <=? nat_of_ascii c)%nat && (nat_of_ascii c <=? 90)%nat.

Definition is_lower (c : ascii) : bool :=
  (97 <=? nat_of_ascii c)%nat && (nat_of_ascii c <=? 122)%nat.

Definition upper (c : ascii) : ascii :=
  if is_lower c then ascii_of_nat (nat_of_ascii c - 32) else c.

Definition lower (c : ascii) : ascii :=
  if is_upper c then ascii_of_nat (nat_of_ascii c + 32) else c.

(** [s.title()]: a letter that follows a letter is lowered, any other
    letter is raised.  Case is that of the letters a-z and A-Z. *)
Fixpoint title_from (prev_cased : bool) (s : string) : string :=
  match s with
  | EmptyString => EmptyString
  | String c s' =>
      String (if prev_cased then lower c else upper c)
             (title_from (is_upper c || is_lower c) s')
  end.

Definition title (s : string) : string := title_from false s.

(** [str(n)] for a length. *)
Definition of_nat (n : nat) : string := NilZero.string_of_uint (Nat.to_uint n).

(** [repr(s)] of a key without quotes in it, as [str(KeyError(s))] shows it. *)
Definition repr (s : string) : string := "'" +:+ s +:+ "'".

(** The double quote, for literals that contain it. *)
Definition dquote : string := String "034"%char EmptyString.

(** [needle in s] *)
Fixpoint contains (needle s : string) : bool :=
  String.prefix needle s
  || match s with
     | EmptyString => false
     | String _ s' => contains needle s'
     end.

End PyStr.

(** ** Sheet names *)

(** [set(':\\/?*[]')] *)
Definition invalid : list ascii := PyStr.chars ":\/?*[]".

Definition _safe_sheet_name (name : string) : string :=
  let cleaned :=
    PyStr.join (filter (λ ch, ch ∉ invalid) (PyStr.chars name)) in
  if (31 <? String.length cleaned)%nat then PyStr.slice_to 31 cleaned else cleaned.

(** ** Exceptions that end a run

    Modelled from the spec: the classes of [utils.exceptions] that [main]
    raises, a configuration error and a file-operation error being the two
    that may end a run; [KeyError] is Python's own, raised by indexing a
    mapping at a key it does not have. *)
Inductive exn :=
  | KeyError (key : string)
  | ConfigurationError (msg : string)
  | HelpfulError (what_went_wrong how_to_fix example : string)
  | FileOperationError (msg : string).

(** [d[key]] on a mapping whose entry may be absent. *)
Definition getitem {A} (key : string) (entry : option A) : exn + A :=
  match entry with
  | Some v => inr v
  | None => inl (KeyError key)
  end.

Notation "x <- m ;; k" :=
  (match m with inl e => inl e | inr x => k end)
  (at level 100, m at next level, right associativity, only parsing).

(** ** Configuration

    The loaded configuration: a key is present or not; a present value has
    the type the annotations give it.  [_env_type] and [_org_id] are put in
    by the loader from the command line. *)

Record GlobalSection := {
  api_base_url : option string;
  api_version : option string;
  tenant_id : option string
}.

Record BusinessCentral := {
  environment_name : option string;
  companies : option (list string);
  apis : option (list string)
}.

Record ScriptBehavior := {
  excel_output_filename : option string
}.

Record Config := {
  global : option GlobalSection;
  business_central : option BusinessCentral;
  script_behavior : option ScriptBehavior;
  _env_type : string;
  _org_id : string
}.

Definition _build_bc_url (config : Config) (environment_name company api_name : string)
  : exn + string :=
  g <- getitem "global" (global config) ;;
  base <- getitem "api-base-url" (api_base_url g) ;;
  let base_url := PyStr.rstrip ["/"%char] base in
  g <- getitem "global" (global config) ;;
  api_version <- getitem "api-version" (api_version g) ;;
  g <- getitem "global" (global config) ;;
  tenant_id <- getitem "tenant-id" (tenant_id g) ;;
  inr (base_url +:+ "/" +:+ api_version +:+ "/" +:+ tenant_id +:+ "/" +:+ environment_name
       +:+ "/ODataV4/" +:+ "Company('" +:+ company +:+ "')/" +:+ api_name).

(** ** Decoded response bodies *)

Inductive json :=
  | JNull
  | JBool (b : bool)
  | JNum (n : Z)
  | JStr (s : string)
  | JList (items : list json)
  | JDict (entries : list (string * json)).

(** [d.get(key)]: the entry, or [None]. *)
Fixpoint dict_get (key : string) (entries : list (string * json)) : option json :=
  match entries with
  | [] => None
  | (k, v) :: rest => if String.eqb k key then Some v else dict_get key rest
  end.

(** Truth value of an object, as [not records] tests it. *)
Definition truthy (v : json) : bool :=
  match v with
  | JNull => false
  | JBool b => b
  | JNum n => negb (n =? 0)%Z
  | JStr s => negb (String.eqb s EmptyString)
  | JList items => negb (Nat.eqb (length items) 0)
  | JDict entries => negb (Nat.eqb (length entries) 0)
  end.

(** Lines 126-130 of [main]: the row source of a payload.  The flag tells
    whether the warning about the response format is logged. *)
Definition coerce_records (payload : json) : json * bool :=
  let records :=
    match payload with
    | JDict entries => default JNull (dict_get "value" entries)
    | _ => JNull
    end in
  match records with
  | JNull => (match payload with JList _ => payload | _ => JList [] end, true)
  | _ => (records, false)
  end.

(** ** Tables *)

(** A frame: its column labels and its rows, one cell per column; a record
    without the column's field leaves the cell empty. *)
Record DataFrame := {
  columns : list string;
  rows : list (list (option json))
}.

(** [len(df)] *)
Definition df_len (df : DataFrame) : nat := length (rows df).

(** [df.iloc[start:stop]] for [start <= stop] within the frame or past it. *)
Definition iloc (start stop : nat) (df : DataFrame) : DataFrame :=
  {| columns := columns df; rows := take (stop - start) (drop start (rows df)) |}.

(** Labels in the order they are first seen. *)
Fixpoint first_seen (seen labels : list string) : list string :=
  match labels with
  | [] => []
  | x :: rest =>
      if bool_decide (x ∈ seen) then first_seen seen rest
      else x :: first_seen (x :: seen) rest
  end.

(** The frame of a list of mappings: the columns are the fields in the order
    they are first seen, with one row per mapping; when no mapping has a
    field there is no column, and pandas keeps no row either. *)
Definition frame_of_dicts (records : list (list (string * json))) : DataFrame :=
  let cols := first_seen [] (concat (map (λ r, r.*1) records)) in
  {| columns := cols;
     rows := match cols with
             | [] => []
             | _ :: _ => map (λ r, map (λ c, dict_get c r) cols) records
             end |}.

(** The mappings of a list whose items are all mappings. *)
Fixpoint as_dicts (items : list json) : option (list (list (string * json))) :=
  match items with
  | [] => Some []
  | JDict entries :: rest => cons entries <$> as_dicts rest
  | _ :: _ => None
  end.

(** Modelled from the spec: the failures of a pair, by the taxonomy of
    [utils.exceptions]: authentication failure, timeout, generic API error,
    and any other exception.  Each stands for what the [except] clause of
    that name catches, in the order of the clauses, and carries [str(e)]. *)
Inductive fetch_error :=
  | ApiAuthenticationError (text : string)
  | ApiTimeoutError (text : string)
  | ApiError (text : string)
  | OtherException (text : string).

(** [str(path)] and [path.name] *)
Record Path := {
  path_text : string;
  path_name : string
}.

(** The collaborators the pipeline calls, taken as they come: the REST
    client of [utils.api_factory] ([get] may answer by the number of the
    request as well as by its URL), pandas on a row source that is not a list
    of mappings, [get_path] of [utils.path_helpers], the workbook writer
    ([Some text] when it raises) and the clock of [utils.load_n_save]. *)
Record Externals := {
  api_get : nat → string → fetch_error + json;
  from_records_irregular : json → fetch_error + DataFrame;
  get_path : string → Path;
  excel_write : Path → gmap string DataFrame → option string;
  get_utc_timestamp : string
}.

(** [pd.DataFrame.from_records(records)] *)
Definition from_records (ext : Externals) (records : json) : fetch_error + DataFrame :=
  match records with
  | JList items =>
      match as_dicts items with
      | Some dicts => inr (frame_of_dicts dicts)
      | None => from_records_irregular ext records
      end
  | _ => from_records_irregular ext records
  end.

Definition _to_dataframe (ext : Externals) (records : json) : fetch_error + DataFrame :=
  if negb (truthy records) then
    inr (iloc 0 0 (frame_of_dicts [[("_no_rows", JBool true)]]))
  else from_records ext records.

(** ** Results of a run *)

Record ProcessingResults := {
  created : list string;
  updated : list string;
  failed : list string;
  expected_errors : Z
}.

Definition str_int (z : Z) : string := NilZero.string_of_int (Z.to_int z).

Definition summary (self : ProcessingResults) : string :=
  let total_success := (length (created self) + length (updated self))%nat in
  if negb (Nat.eqb (length (failed self)) 0) then
    "❌ Completed with " +:+ PyStr.of_nat (length (failed self)) +:+ " failures: "
    +:+ PyStr.of_nat (length (created self)) +:+ " created, "
    +:+ PyStr.of_nat (length (updated self)) +:+ " updated, "
    +:+ PyStr.of_nat (length (failed self)) +:+ " failed"
  else
    let expected_note :=
      if (0 <? expected_errors self)%Z
      then " (" +:+ str_int (expected_errors self) +:+ " handled expected duplicates)"
      else EmptyString in
    "✅ All " +:+ PyStr.of_nat total_success +:+ " operations successful: "
    +:+ PyStr.of_nat (length (created self)) +:+ " created, "
    +:+ PyStr.of_nat (length (updated self)) +:+ " updated" +:+ expected_note.

Definition no_results : ProcessingResults :=
  {| created := []; updated := []; failed := []; expected_errors := 0 |}.

(** [results.created.append(entry)] *)
Definition created_append (entry : string) (r : ProcessingResults) : ProcessingResults :=
  {| created := created r ++ [entry]; updated := updated r;
     failed := failed r; expected_errors := expected_errors r |}.

(** [results.failed.append(entry)] *)
Definition failed_append (entry : string) (r : ProcessingResults) : ProcessingResults :=
  {| created := created r; updated := updated r;
     failed := failed r ++ [entry]; expected_errors := expected_errors r |}.

(** The summary record saved as JSON at the end of a run. *)
Record Summary := {
  sum_timestamp : string;
  sum_org : string;
  sum_env : string;
  sum_environment_name : string;
  sum_companies : list string;
  sum_apis : list string;
  sum_excel_file : string;
  sum_created : list string;
  sum_failed : list string
}.

(** ** Effects

    What a run does to the outside: the URLs it requests, the lines it logs,
    the workbook it writes and the summaries it saves, each in order. *)

Inductive Level := INFO | WARNING | ERROR.

Record World := {
  requests : list string;
  log : list (Level * string);
  workbook : option (Path * gmap string DataFrame);
  saved : list (string * Summary)
}.

Definition nothing_yet : World :=
  {| requests := []; log := []; workbook := None; saved := [] |}.

Inductive Res (A : Type) :=
  | Returned (a : A) (w : World)
  | Raised (e : exn) (w : World).
Arguments Returned {A} a w.
Arguments Raised {A} e w.

Definition M (A : Type) : Type := World → Res A.

Definition ret {A} (a : A) : M A := λ w, Returned a w.

Definition bind {A B} (m : M A) (k : A → M B) : M B :=
  λ w, match m w with
       | Returned a w' => k a w'
       | Raised e w' => Raised e w'
       end.

Definition raise {A} (e : exn) : M A := λ w, Raised e w.

Definition lift {A} (r : exn + A) : M A :=
  match r with
  | inl e => raise e
  | inr a => ret a
  end.

Notation "x <~ m ;; k" := (bind m (λ x, k))
  (at level 100, m at next level, right associativity, only parsing).

(** Modelled from the spec: the logger of [utils.logger] adds a line to the
    log stream and does not raise. *)
Definition logger (level : Level) (msg : string) : M unit :=
  λ w, Returned tt {| requests := requests w; log := log w ++ [(level, msg)];
                      workbook := workbook w; saved := saved w |}.

(** Modelled from the spec: [data_handler.save(summary, Dir.OUTPUT, filename)]
    of [utils.load_n_save] persists the record under the file name and does
    not raise. *)
Definition save (record : Summary) (filename : string) : M unit :=
  λ w, Returned tt {| requests := requests w; log := log w;
                      workbook := workbook w; saved := saved w ++ [(filename, record)] |}.

(** The sheets staged by the loop and the results so far. *)
Record Staged := {
  results : ProcessingResults;
  sheets : gmap string DataFrame
}.

Section Pipeline.

Variable config : Config.
Variable ext : Externals.

(** [api.get(url)]: the request is issued, the client answers. *)
Definition get (url : string) : M (fetch_error + json) :=
  λ w, Returned (api_get ext (length (requests w)) url)
         {| requests := requests w ++ [url]; log := log w;
            workbook := workbook w; saved := saved w |}.

(** The [except] clauses of the fetch loop, in their order. *)
Definition on_error (context company api_name : string) (e : fetch_error)
    (st : Staged) : M Staged :=
  let entry := "BusinessCentral/" +:+ company +:+ "/" +:+ api_name in
  match e with
  | ApiAuthenticationError text =>
      _ <~ logger ERROR (context +:+ " Authentication error: " +:+ text) ;;
      ret {| results := failed_append (entry +:+ ": auth failed") (results st);
             sheets := sheets st |}
  | ApiTimeoutError text =>
      _ <~ logger ERROR (context +:+ " Timeout: " +:+ text) ;;
      ret {| results := failed_append (entry +:+ ": timeout") (results st);
             sheets := sheets st |}
  | ApiError text =>
      _ <~ logger ERROR (context +:+ " API error: " +:+ text) ;;
      ret {| results := failed_append (entry +:+ ": api error") (results st);
             sheets := sheets st |}
  | OtherException text =>
      _ <~ logger ERROR (context +:+ " Unexpected error: " +:+ text) ;;
      ret {| results := failed_append (entry +:+ ": unexpected error") (results st);
             sheets := sheets st |}
  end.

(** The body of the inner loop, lines 120-151. *)
Definition fetch_pair (environment_name env_label company api_name : string)
    (st : Staged) : M Staged :=
  let context := "[" +:+ env_label +:+ "/" +:+ company +:+ "/" +:+ api_name +:+ "]" in
  url <~ lift (_build_bc_url config environment_name company api_name) ;;
  _ <~ logger INFO (context +:+ " GET " +:+ url) ;;
  answer <~ get url ;;
  match answer with
  | inl e => on_error context company api_name e st
  | inr payload =>
      let (records, coerced) := coerce_records payload in
      _ <~ (if coerced
            then logger WARNING (context +:+ " Unexpected response format; coercing to list")
            else ret tt) ;;
      match _to_dataframe ext records with
      | inl e => on_error context company api_name e st
      | inr df =>
          let sheet_name := _safe_sheet_name (company +:+ "__" +:+ api_name) in
          _ <~ logger INFO (context +:+ " Retrieved " +:+ PyStr.of_nat (df_len df) +:+ " rows") ;;
          ret {| results := created_append ("BusinessCentral/" +:+ company +:+ "/" +:+ api_name)
                              (results st);
                 sheets := <[sheet_name := df]> (sheets st) |}
      end
  end.

(** [for api_name in apis] *)
Fixpoint for_apis (environment_name env_label company : string) (apis : list string)
    (st : Staged) : M Staged :=
  match apis with
  | [] => ret st
  | api_name :: rest =>
      st' <~ fetch_pair environment_name env_label company api_name st ;;
      for_apis environment_name env_label company rest st'
  end.

(** [for company in companies] *)
Fixpoint for_companies (environment_name env_label : string) (companies apis : list string)
    (st : Staged) : M Staged :=
  match companies with
  | [] => ret st
  | company :: rest =>
      st' <~ for_apis environment_name env_label company apis st ;;
      for_companies environment_name env_label rest apis st'
  end.

(** Lines 94-101: the settings of the run, a missing key reported as a
    [ConfigurationError]. *)
Definition read_settings : exn + (string * list string * list string * string) :=
  match
    (bc <- getitem "business-central" (business_central config) ;;
     environment_name <- getitem "environment-name" (environment_name bc) ;;
     companies <- getitem "companies" (companies bc) ;;
     apis <- getitem "apis" (apis bc) ;;
     sb <- getitem "script-behavior" (script_behavior config) ;;
     excel_filename <- getitem "excel-output-filename" (excel_output_filename sb) ;;
     inr (environment_name, companies, apis, excel_filename))
  with
  | inl (KeyError key) =>
      inl (ConfigurationError ("Missing configuration key: " +:+ PyStr.repr key))
  | other => other
  end.

Definition no_companies_or_apis : exn :=
  HelpfulError
    "No companies or APIs defined."
    "Fill 'business-central.companies' and 'business-central.apis' in your org-env config."
    (let q := PyStr.dquote in
     "{" +:+ q +:+ "business-central" +:+ q +:+ ": {" +:+ q +:+ "environment-name" +:+ q
     +:+ ": " +:+ q +:+ "TestSE" +:+ q +:+ ", " +:+ q +:+ "companies" +:+ q +:+ ": ["
     +:+ q +:+ "TXO" +:+ q +:+ "], " +:+ q +:+ "apis" +:+ q +:+ ": [" +:+ q
     +:+ "IntercompanyPartner" +:+ q +:+ "]}}").

(** Lines 155-163: the workbook is written, or the run stops.  [workbook]
    tells of a workbook written whole; what a write that raises leaves on
    disk is not told. *)
Definition write_excel (output_path : Path) (staged : gmap string DataFrame) : M unit :=
  match excel_write ext output_path staged with
  | None =>
      λ w, logger INFO ("[" +:+ PyStr.title (_env_type config) +:+ "/Excel/Write] Wrote "
                        +:+ path_text output_path)
             {| requests := requests w; log := log w;
                workbook := Some (output_path, staged); saved := saved w |}
  | Some _ =>
      raise (FileOperationError ("Failed to write Excel file: " +:+ path_text output_path))
  end.

(** Lines 111-151: the fetch loop.  The client is at hand: how [ApiManager]
    gets it and releases it is outside the pipeline. *)
Definition fetch_all (environment_name : string) (companies apis : list string) : M Staged :=
  let env_label := PyStr.title (_env_type config) in
  for_companies environment_name env_label companies apis
    {| results := no_results; sheets := ∅ |}.

Definition main : M unit :=
  settings <~ lift read_settings ;;
  let '(environment_name, companies, apis, excel_filename) := settings in
  if (Nat.eqb (length companies) 0 || Nat.eqb (length apis) 0)%bool then
    raise no_companies_or_apis
  else
    st <~ fetch_all environment_name companies apis ;;
    let output_path := get_path ext excel_filename in
    _ <~ write_excel output_path (sheets st) ;;
    let ts := get_utc_timestamp ext in
    let summary_record :=
      {| sum_timestamp := ts;
         sum_org := _org_id config;
         sum_env := _env_type config;
         sum_environment_name := environment_name;
         sum_companies := companies;
         sum_apis := apis;
         sum_excel_file := path_name output_path;
         sum_created := created (results st);
         sum_failed := failed (results st) |} in
    _ <~ save summary_record ("bc-fetch-summary_" +:+ ts +:+ ".json") ;;
    logger INFO (summary (results st)).

End Pipeline.

(** ** Sheet names, as the workbook wants them *)

(** The seven characters a sheet name may not hold. *)
Definition forbidden : list ascii :=
  [":"; "\"; "/"; "?"; "*"; "["; "]"]%char.

(** The name with every forbidden character removed. *)
Definition cleaned_chars (name : string) : list ascii :=
  filter (λ ch, ch ∉ forbidden) (PyStr.chars name).

(** ** The run, pair by pair

    The vocabulary of the properties below. *)

(** The (company, resource) pairs in the order of the two loops. *)
Definition fetch_pairs (companies apis : list string) : list (string * string) :=
  list_prod companies apis.

(** The two loops as one loop over the pairs. *)
Fixpoint for_pairs (config : Config) (ext : Externals) (environment_name env_label : string)
    (pairs : list (string * string)) (st : Staged) : M Staged :=
  match pairs with
  | [] => ret st
  | (company, api_name) :: rest =>
      st' <~ fetch_pair config ext environment_name env_label company api_name st ;;
      for_pairs config ext environment_name env_label rest st'
  end.

(** The three connection keys are present. *)
Definition has_connection (config : Config) : bool :=
  match global config with
  | Some g =>
      bool_decide (is_Some (api_base_url g)) && bool_decide (is_Some (api_version g))
      && bool_decide (is_Some (tenant_id g))
  | None => false
  end.

Definition url_of (config : Config) (environment_name : string) (p : string * string)
  : string :=
  match _build_bc_url config environment_name p.1 p.2 with
  | inr url => url
  | inl _ => EmptyString
  end.

(** The label of a pair in the Run Result, and its sheet name. *)
Definition entry_of (p : string * string) : string :=
  "BusinessCentral/" +:+ p.1 +:+ "/" +:+ p.2.

Definition sheet_of (p : string * string) : string :=
  _safe_sheet_name (p.1 +:+ "__" +:+ p.2).

(** The reason category of a failure. *)
Definition reason_category (e : fetch_error) : string :=
  match e with
  | ApiAuthenticationError _ => "auth failed"
  | ApiTimeoutError _ => "timeout"
  | ApiError _ => "api error"
  | OtherException _ => "unexpected error"
  end.

(** What the [n]-th request of a run comes to: the table of the answer, or
    the exception raised by the client or by the making of the table. *)
Definition attempt (ext : Externals) (n : nat) (url : string) : fetch_error + DataFrame :=
  match api_get ext n url with
  | inl e => inl e
  | inr payload => _to_dataframe ext (coerce_records payload).1
  end.

(** The outcome of a pair as the Run Result and the staged sheets hold it. *)
Definition record_outcome (p : string * string) (r : fetch_error + DataFrame)
    (st : Staged) : Staged :=
  match r with
  | inr df =>
      {| results := created_append (entry_of p) (results st);
         sheets := <[sheet_of p := df]> (sheets st) |}
  | inl e =>
      {| results := failed_append (entry_of p +:+ ": " +:+ reason_category e) (results st);
         sheets := sheets st |}
  end.

(** The outcomes of the pairs of a run whose first request is the [n]-th. *)
Fixpoint outcomes (config : Config) (ext : Externals) (environment_name : string) (n : nat)
    (pairs : list (string * string)) : list (string * string * (fetch_error + DataFrame)) :=
  match pairs with
  | [] => []
  | p :: rest =>
      (p, attempt ext n (url_of config environment_name p))
      :: outcomes config ext environment_name (S n) rest
  end.

Definition record_all (os : list (string * string * (fetch_error + DataFrame)))
    (st : Staged) : Staged :=
  foldl (λ st o, record_outcome o.1 o.2 st) st os.

(** The entry a pair leaves in the created list, in the failed list, and the
    sheet it stages. *)
Definition created_entry (o : string * string * (fetch_error + DataFrame)) : option string :=
  match o.2 with
  | inr _ => Some (entry_of o.1)
  | inl _ => None
  end.

Definition failed_entry (o : string * string * (fetch_error + DataFrame)) : option string :=
  match o.2 with
  | inr _ => None
  | inl e => Some (entry_of o.1 +:+ ": " +:+ reason_category e)
  end.

Definition staged_sheet (o : string * string * (fetch_error + DataFrame))
  : option (string * DataFrame) :=
  match o.2 with
  | inr df => Some (sheet_of o.1, df)
  | inl _ => None
  end.

Definition stage (staged : gmap string DataFrame) (sheet : string * DataFrame)
  : gmap string DataFrame :=
  <[sheet.1 := sheet.2]> staged.

(** How many names of a list repeat a name seen before them. *)
Fixpoint collisions (seen names : list string) : nat :=
  match names with
  | [] => 0
  | name :: rest =>
      (if bool_decide (name ∈ seen) then 1 else 0) + collisions (name :: seen) rest
  end.

(** ** The record normalizer, in the words of its contract *)

(** The records collection of a body: the list a mapping stores under
    ["value"]. *)
Definition records_collection (body : json) : option (list json) :=
  match body with
  | JDict entries =>
      match dict_get "value" entries with
      | Some (JList records) => Some records
      | _ => None
      end
  | _ => None
  end.

(** The row source by the contract: the records collection of a mapping that
    has one, a bare list itself, no rows for any other shape. *)
Definition contract_rows (body : json) : json :=
  match records_collection body with
  | Some records => JList records
  | None =>
      match body with
      | JList items => JList items
      | _ => JList []
      end
  end.

(** The table of a pair without rows: one placeholder column, no data row. *)
Definition placeholder_table : DataFrame :=
  {| columns := ["_no_rows"]; rows := [] |}.

(** ** Configuration errors, in the words of the error taxonomy *)

(** A key that lines 95-99 read is absent. *)
Definition required_key_missing (config : Config) : Prop :=
  match business_central config, script_behavior config with
  | Some bc, Some sb =>
      environment_name bc = None ∨ companies bc = None ∨ apis bc = None
      ∨ excel_output_filename sb = None
  | _, _ => True
  end.

(** The list of companies or the list of resources is there and is empty. *)
Definition companies_or_apis_empty (config : Config) : Prop :=
  ∃ bc, business_central config = Some bc
        ∧ (companies bc = Some [] ∨ apis bc = Some []).

Definition is_configuration_error (e : exn) : Prop :=
  match e with
  | ConfigurationError _ | HelpfulError _ _ _ => True
  | _ => False
  end.

(** The summary record of a run, as [main] builds it. *)
Definition summary_of (config : Config) (ext : Externals) (environment_name : string)
    (companies apis : list string) (excel_filename : string) (r : ProcessingResults)
  : Summary :=
  {| sum_timestamp := get_utc_timestamp ext;
     sum_org := _org_id config;
     sum_env := _env_type config;
     sum_environment_name := environment_name;
     sum_companies := companies;
     sum_apis := apis;
     sum_excel_file := path_name (get_path ext excel_filename);
     sum_created := created r;
     sum_failed := failed r |}.

(** ** Inputs to run the pipeline on *)

Definition example_config : Config :=
  {| global := Some {| api_base_url := Some "https://api.businesscentral.dynamics.com//";
                       api_version := Some "v2.0";
                       tenant_id := Some "tenant" |};
     business_central := Some {| environment_name := Some "TestSE";
                                 companies := Some ["TXO"];
                                 apis := Some ["IntercompanyPartner"] |};
     script_behavior := Some {| excel_output_filename := Some "bc.xlsx" |};
     _env_type := "test";
     _org_id := "chris" |}.

Definition example_payload : json :=
  JDict [("value", JList [JDict [("id", JNum 1)]; JDict [("id", JNum 2)]])].

Definition example_path (filename : string) : Path :=
  {| path_text := "output/" +:+ filename; path_name := filename |}.

(** A client that answers every request with [example_payload]. *)
Definition example_client : Externals :=
  {| api_get := λ _ _, inr example_payload;
     from_records_irregular := λ _, inl (OtherException "not a list of records");
     get_path := example_path;
     excel_write := λ _ _, None;
     get_utc_timestamp := "20260101_000000Z" |}.

(** A client whose first request times out and whose later ones are answered. *)
Definition flaky_client : Externals :=
  {| api_get := λ n _, if Nat.eqb n 0 then inl (ApiTimeoutError "timed out")
                       else inr example_payload;
     from_records_irregular := λ _, inl (OtherException "not a list of records");
     get_path := example_path;
     excel_write := λ _ _, None;
     get_utc_timestamp := "20260101_000000Z" |}.

(** A client whose every request times out. *)
Definition timeout_client : Externals :=
  {| api_get := λ _ _, inl (ApiTimeoutError "timed out");
     from_records_irregular := λ _, inl (OtherException "not a list of records");
     get_path := example_path;
     excel_write := λ _ _, None;
     get_utc_timestamp := "20260101_000000Z" |}.

(** A configuration without the list of resources. *)
Definition config_without_apis : Config :=
  {| global := global example_config;
     business_central := Some {| environment_name := Some "TestSE";
                                 companies := Some ["TXO"];
                                 apis := None |};
     script_behavior := script_behavior example_config;
     _env_type := "test";
     _org_id := "chris" |}.

(** A client that answers with a mapping whose ["value"] entry is a
    number, with pandas raising on a number as a row source. *)
Definition scalar_value_client : Externals :=
  {| api_get := λ _ _, inr (JDict [("value", JNum 5)]);
     from_records_irregular := λ _, inl (OtherException "object of type 'int' has no len()");
     get_path := example_path;
     excel_write := λ _ _, None;
     get_utc_timestamp := "20260101_000000Z" |}.

(** A client whose workbook cannot be written. *)
Definition read_only_disk : Externals :=
  {| api_get := λ _ _, inr example_payload;
     from_records_irregular := λ _, inl (OtherException "not a list of records");
     get_path := example_path;
     excel_write := λ _ _, Some "Permission denied";
     get_utc_timestamp := "20260101_000000Z" |}.

(** A client that answers the first request with no record and the later
    ones with three. *)
Definition empty_then_three : Externals :=
  {| api_get := λ n _,
       if Nat.eqb n 0 then inr (JDict [("value", JList [])])
       else inr (JDict [("value", JList [JDict [("id", JNum 1)]; JDict [("id", JNum 2)];
                                         JDict [("id", JNum 3)]])]);
     from_records_irregular := λ _, inl (OtherException "not a list of records");
     get_path := example_path;
     excel_write := λ _ _, None;
     get_utc_timestamp := "20260101_000000Z" |}.

(** ** Counting log lines *)

#[global] Instance Level_eq_dec : EqDecision Level.
Proof. solve_decision. Defined.

(** How many of the lines were logged at a level. *)
Definition level_count (level : Level) (lines : list (Level * string)) : nat :=
  length (filter (λ line, line.1 = level) lines).

(** [example_config] with a base URL that ends without a slash. *)
Definition config_without_slashes : Config :=
  {| global := Some {| api_base_url := Some "https://api.businesscentral.dynamics.com";
                       api_version := Some "v2.0";
                       tenant_id := Some "tenant" |};
     business_central := business_central example_config;
     script_behavior := script_behavior example_config;
     _env_type := "test";
     _org_id := "chris" |}.

(** The world a run ends in. *)
Definition world_of {A} (r : Res A) : World :=
  match r with
  | Returned _ w | Raised _ w => w
  end.

(** A client that answers with a mapping whose ["value"] entry is zero. *)
Definition zero_value_client : Externals :=
  {| api_get := λ _ _, inr (JDict [("value", JNum 0)]);
     from_records_irregular := λ _, inl (OtherException "not a list of records");
     get_path := example_path;
     excel_write := λ _ _, None;
     get_utc_timestamp := "20260101_000000Z" |}.

(** [example_config] without the tenant of the connection. *)
Definition config_without_tenant_id : Config :=
  {| global := Some {| api_base_url := Some "https://api.businesscentral.dynamics.com//";
                       api_version := Some "v2.0";
                       tenant_id := None |};
     business_central := business_central example_config;
     script_behavior := script_behavior example_config;
     _env_type := "test";
     _org_id := "chris" |}.

(** * Properties *)

(** ** The helpers on examples *)

Example title_test : PyStr.title "test" = "Test". Proof. reflexivity. Qed.
Example title_words : PyStr.title "pROD se-2" = "Prod Se-2". Proof. reflexivity. Qed.
Example rstrip_all : PyStr.rstrip ["/"%char] "https://h/v//" = "https://h/v".
Proof. reflexivity. Qed.
Example safe_short : _safe_sheet_name "TXO__IntercompanyPartner" = "TXO__IntercompanyPartner".
Proof. reflexivity. Qed.
Example safe_strip : _safe_sheet_name "a:b\c/d?e*f[g]h" = "abcdefgh".
Proof. reflexivity. Qed.
Example safe_long :
  _safe_sheet_name "Company/One__SalesInvoiceLineItemsExtended" = "CompanyOne__SalesInvoiceLineIte".
Proof. reflexivity. Qed.



Example summary_ok :
  summary {| created := ["a"; "b"]; updated := []; failed := []; expected_errors := 0 |}
  = "✅ All 2 operations successful: 2 created, 0 updated".
Proof. reflexivity. Qed.

(** ** Strings as lists of characters *)

Module PyStrFacts.
Import PyStr.

Lemma chars_join (cs : list ascii) : chars (join cs) = cs.
Proof. apply list_ascii_of_string_of_list_ascii. Qed.

Lemma join_chars (s : string) : join (chars s) = s.
Proof. apply string_of_list_ascii_of_string. Qed.

Lemma length_chars (s : string) : String.length s = length (chars s).
Proof. induction s as [|c s IH]; simpl; [done | by rewrite IH]. Qed.

Lemma length_join (cs : list ascii) : String.length (join cs) = length cs.
Proof. by rewrite length_chars, chars_join. Qed.

Lemma slice_to_take (n : nat) (s : string) : slice_to n s = join (take n (chars s)).
Proof.
  unfold slice_to. revert n.
  induction s as [|c s IH]; intros [|n]; simpl; try done.
  by rewrite IH.
Qed.

Lemma chars_app (s t : string) : chars (s +:+ t) = (chars s ++ chars t)%list.
Proof. induction s as [|c s IH]; simpl; [done | by rewrite IH]. Qed.

(** [rstrip] splits a string into a stem that does not end in a stripped
    character and a run of stripped characters. *)
Lemma app_empty (t : string) : EmptyString +:+ t = t.
Proof. reflexivity. Qed.

Lemma app_String (c : ascii) (s t : string) : String c s +:+ t = String c (s +:+ t).
Proof. reflexivity. Qed.

(** [rstrip] splits a string into a stem that does not end in a stripped
    character and a run of stripped characters. *)
Lemma rstrip_slashes (s : string) :
  ∃ k, s = rstrip ["/"%char] s +:+ join (replicate k "/"%char)
       ∧ last (chars (rstrip ["/"%char] s)) ≠ Some "/"%char.
Proof.
  induction s as [|c s (k & Hs & Hlast)]; simpl.
  - by exists 0.
  - destruct (rstrip ["/"%char] s) as [|a r] eqn:Hr.
    + rewrite app_empty in Hs. case_bool_decide as Hc.
      * apply list_elem_of_singleton in Hc as ->.
        exists (S k). rewrite app_empty. simpl. by rewrite <- Hs.
      * exists k. rewrite app_String, app_empty, <- Hs. split; [done|].
        simpl. intros [= ->]. apply Hc, list_elem_of_singleton. done.
    + exists k. rewrite app_String, <- Hs. split; [done|].
      simpl in *. done.
Qed.

End PyStrFacts.

(** ** Sheet names *)

Section SheetNames.
Import PyStr PyStrFacts.

Lemma safe_sheet_name_chars (name : string) :
  _safe_sheet_name name = join (take 31 (cleaned_chars name)).
Proof.
  unfold _safe_sheet_name, cleaned_chars.
  change invalid with forbidden.
  set (cs := filter _ _).
  rewrite length_join.
  destruct (31 <? length cs)%nat eqn:Hlen.
  - by rewrite slice_to_take, chars_join.
  - apply Nat.ltb_ge in Hlen. by rewrite take_ge.
Qed.

Lemma cleaned_chars_allowed (name : string) :
  Forall (λ ch, ch ∉ forbidden) (cleaned_chars name).
Proof.
  apply Forall_forall. intros ch Hin.
  by apply list_elem_of_filter in Hin as [? _].
Qed.

Lemma filter_allowed_id (cs : list ascii) :
  Forall (λ ch, ch ∉ forbidden) cs → filter (λ ch, ch ∉ forbidden) cs = cs.
Proof.
  induction 1 as [|c cs Hc _ IH]; [done|].
  rewrite filter_cons_True by done. by rewrite IH.
Qed.

Lemma filter_forbidden_nil (cs : list ascii) :
  Forall (λ ch, ch ∈ forbidden) cs → filter (λ ch, ch ∉ forbidden) cs = [].
Proof.
  induction 1 as [|c cs Hc _ IH]; [done|].
  rewrite filter_cons_False by (intros Hn; by apply Hn). done.
Qed.

(** C3. For every input, [_safe_sheet_name] returns the input without its
    forbidden characters [: \ / ? * [ ]], cut to its first 31 characters;
    so the result has at most 31 characters, holds no forbidden character,
    and is empty when the input holds forbidden characters only. *)
Theorem safe_sheet_name_spec (name : string) :
  _safe_sheet_name name = join (take 31 (filter (λ ch, ch ∉ forbidden) (chars name)))
  ∧ (String.length (_safe_sheet_name name) ≤ 31)%nat
  ∧ (∀ ch, ch ∈ forbidden → ch ∉ chars (_safe_sheet_name name))
  ∧ (Forall (λ ch, ch ∈ forbidden) (chars name) → _safe_sheet_name name = EmptyString).
Proof.
  rewrite safe_sheet_name_chars. fold (cleaned_chars name).
  split_and!.
  - done.
  - rewrite length_join, length_take. lia.
  - intros ch Hbad. rewrite chars_join. intros Hin.
    apply elem_of_take in Hin as (i & Hi & _).
    apply list_elem_of_lookup_2 in Hi.
    by apply list_elem_of_filter in Hi as [? _].
  - intros Hall. unfold cleaned_chars.
    by rewrite filter_forbidden_nil.
Qed.

(** C6. Deriving a sheet name from a derived sheet name changes nothing. *)
Theorem safe_sheet_name_idempotent (s : string) :
  _safe_sheet_name (_safe_sheet_name s) = _safe_sheet_name s.
Proof.
  rewrite !safe_sheet_name_chars.
  unfold cleaned_chars at 1. rewrite chars_join.
  rewrite filter_allowed_id.
  - by rewrite take_take, Nat.min_id.
  - apply Forall_take, cleaned_chars_allowed.
Qed.

End SheetNames.

(** ** Request URLs *)

Section Urls.
Import PyStr PyStrFacts.

(** C7. With the three connection keys present, the URL is
    [{base}/{version}/{tenant}/{environment}/ODataV4/Company('{company}')/{resource}]
    where [{base}] is the base URL without its trailing slashes: the base
    URL is that stem followed by slashes only, and the stem does not end in
    a slash. *)
Theorem build_bc_url_template (config : Config)
    (base version tenant environment company resource : string) :
  global config = Some {| api_base_url := Some base; api_version := Some version;
                          tenant_id := Some tenant |} →
  ∃ (stem : string) (k : nat),
    base = stem +:+ join (replicate k "/"%char)
    ∧ last (chars stem) ≠ Some "/"%char
    ∧ _build_bc_url config environment company resource
      = inr (stem +:+ "/" +:+ version +:+ "/" +:+ tenant +:+ "/" +:+ environment
             +:+ "/ODataV4/Company('" +:+ company +:+ "')/" +:+ resource).
Proof.
  intros Hg.
  destruct (rstrip_slashes base) as (k & Hbase & Hlast).
  exists (rstrip ["/"%char] base), k. split_and!; [done..|].
  unfold _build_bc_url. by rewrite Hg.
Qed.

(** A key of the [global] section that is absent is a [KeyError]. *)
Lemma build_bc_url_KeyError (config : Config) (environment company resource : string) :
  (global config = None
   ∨ ∃ g, global config = Some g
          ∧ (api_base_url g = None ∨ api_version g = None ∨ tenant_id g = None)) →
  ∃ key, _build_bc_url config environment company resource = inl (KeyError key).
Proof.
  unfold _build_bc_url.
  intros [-> | (g & -> & Hkey)]; simpl; [by eexists|].
  destruct (api_base_url g), (api_version g), (tenant_id g); simpl; try by eexists.
  by destruct Hkey as [?|[?|?]].
Qed.

End Urls.

Lemma build_bc_url_template_witness :
  ∃ (stem : string) (k : nat),
    "https://api.businesscentral.dynamics.com//" = stem +:+ PyStr.join (replicate k "/"%char)
    ∧ last (PyStr.chars stem) ≠ Some "/"%char
    ∧ _build_bc_url example_config "TestSE" "TXO" "IntercompanyPartner"
      = inr (stem +:+ "/" +:+ "v2.0" +:+ "/" +:+ "tenant" +:+ "/" +:+ "TestSE"
             +:+ "/ODataV4/Company('" +:+ "TXO" +:+ "')/" +:+ "IntercompanyPartner").
Proof.
  apply (build_bc_url_template example_config
           "https://api.businesscentral.dynamics.com//" "v2.0" "tenant").
  reflexivity.
Defined.

(** ** The fetch loop, pair by pair *)

Section FetchLoop.
Context (config : Config) (ext : Externals).
Context (environment_name env_label : string).

Lemma build_bc_url_connected (p : string * string) :
  has_connection config = true →
  _build_bc_url config environment_name p.1 p.2
  = inr (url_of config environment_name p).
Proof.
  unfold has_connection, url_of, _build_bc_url.
  destruct (global config) as [g|]; [|done].
  rewrite !andb_true_iff, !bool_decide_eq_true.
  intros [[[b Hb] [v Hv]] [t Ht]]. simpl.
  by rewrite Hb, Hv, Ht.
Qed.

Lemma for_apis_pairs (company : string) (apis : list string) (st : Staged) (w : World) :
  for_apis config ext environment_name env_label company apis st w
  = for_pairs config ext environment_name env_label (map (pair company) apis) st w.
Proof.
  revert st w. induction apis as [|a apis IH]; intros st w; [done|].
  simpl. unfold bind. destruct (fetch_pair _ _ _ _ _ _ _ _); [apply IH | done].
Qed.

Lemma for_pairs_app (ps qs : list (string * string)) (st : Staged) (w : World) :
  for_pairs config ext environment_name env_label (ps ++ qs) st w
  = bind (for_pairs config ext environment_name env_label ps st)
         (for_pairs config ext environment_name env_label qs) w.
Proof.
  revert st w. induction ps as [|[c a] ps IH]; intros st w; [done|].
  simpl. unfold bind in *.
  destruct (fetch_pair _ _ _ _ _ _ _ _); [apply IH | done].
Qed.

Lemma for_companies_pairs (companies apis : list string) (st : Staged) (w : World) :
  for_companies config ext environment_name env_label companies apis st w
  = for_pairs config ext environment_name env_label (fetch_pairs companies apis) st w.
Proof.
  unfold fetch_pairs.
  revert st w. induction companies as [|c companies IH]; intros st w; [done|].
  simpl. rewrite for_pairs_app. unfold bind.
  rewrite for_apis_pairs.
  destruct (for_pairs _ _ _ _ (map _ _) _ _); [apply IH | done].
Qed.

Lemma fetch_pair_step (p : string * string) (st : Staged) (w : World) :
  has_connection config = true →
  ∃ w', fetch_pair config ext environment_name env_label p.1 p.2 st w
        = Returned (record_outcome p
                      (attempt ext (length (requests w)) (url_of config environment_name p)) st)
                   w'
        ∧ requests w' = requests w ++ [url_of config environment_name p]
        ∧ workbook w' = workbook w
        ∧ saved w' = saved w.
Proof.
  intros Hconn. unfold fetch_pair, attempt, bind.
  rewrite (build_bc_url_connected p Hconn). simpl.
  destruct (api_get ext _ _) as [e|payload].
  - destruct e; simpl; eexists; split_and!; reflexivity.
  - destruct (coerce_records payload) as [records coerced]. simpl.
    destruct coerced; simpl;
      (destruct (_to_dataframe ext records) as [e|df];
       [destruct e|]; simpl; eexists; split_and!; reflexivity).
Qed.

Lemma for_pairs_outcomes (pairs : list (string * string)) (st : Staged) (w : World) :
  has_connection config = true →
  ∃ w', for_pairs config ext environment_name env_label pairs st w
        = Returned (record_all (outcomes config ext environment_name
                                  (length (requests w)) pairs) st) w'
        ∧ requests w' = requests w ++ map (url_of config environment_name) pairs
        ∧ workbook w' = workbook w
        ∧ saved w' = saved w.
Proof.
  intros Hconn. revert st w.
  induction pairs as [|p pairs IH]; intros st w.
  - exists w. by rewrite app_nil_r.
  - destruct (fetch_pair_step p st w Hconn) as (w1 & Hstep & Hreq & Hwb & Hsaved).
    destruct p as [c a]. simpl in Hstep |- *. unfold bind. rewrite Hstep.
    destruct (IH (record_outcome (c, a)
                    (attempt ext (length (requests w))
                       (url_of config environment_name (c, a))) st) w1)
      as (w2 & Hrest & Hreq2 & Hwb2 & Hsaved2).
    exists w2. rewrite Hrest, Hreq2, Hwb2, Hsaved2, Hreq, Hwb, Hsaved.
    rewrite length_app, Nat.add_1_r, <- app_assoc. done.
Qed.

End FetchLoop.

(** The lists and the sheets after a sequence of outcomes. *)
Lemma record_all_created os st :
  created (results (record_all os st)) = created (results st) ++ omap created_entry os.
Proof.
  revert st. induction os as [|[p [e|df]] os IH]; intros st; simpl.
  - by rewrite app_nil_r.
  - by rewrite IH.
  - rewrite IH. simpl. by rewrite <- app_assoc.
Qed.

Lemma record_all_failed os st :
  failed (results (record_all os st)) = failed (results st) ++ omap failed_entry os.
Proof.
  revert st. induction os as [|[p [e|df]] os IH]; intros st; simpl.
  - by rewrite app_nil_r.
  - rewrite IH. simpl. by rewrite <- app_assoc.
  - by rewrite IH.
Qed.

Lemma record_all_sheets os st :
  sheets (record_all os st) = foldl stage (sheets st) (omap staged_sheet os).
Proof.
  revert st. induction os as [|[p [e|df]] os IH]; intros st; simpl; [done|..]; by rewrite IH.
Qed.

Lemma outcomes_pairs config ext environment_name n pairs :
  (outcomes config ext environment_name n pairs).*1 = pairs.
Proof.
  revert n. induction pairs as [|p pairs IH]; intros n; simpl; [done|]. by rewrite IH.
Qed.

Lemma outcomes_app config ext environment_name n ps qs :
  outcomes config ext environment_name n (ps ++ qs)
  = outcomes config ext environment_name n ps
    ++ outcomes config ext environment_name (n + length ps) qs.
Proof.
  revert n. induction ps as [|p ps IH]; intros n; simpl.
  - by rewrite Nat.add_0_r.
  - rewrite IH. by rewrite Nat.add_succ_r.
Qed.

Lemma created_or_failed os :
  length (omap created_entry os) + length (omap failed_entry os) = length os.
Proof.
  induction os as [|[p [e|df]] os IH]; csimpl; [done|..]; simpl; lia.
Qed.

(** ** The Run Result *)

Section RunResult.
Context (config : Config) (ext : Externals).
Context (environment_name : string) (companies apis : list string).

Lemma fetch_all_outcomes (w : World) :
  has_connection config = true →
  ∃ w', fetch_all config ext environment_name companies apis w
        = Returned (record_all (outcomes config ext environment_name (length (requests w))
                                  (fetch_pairs companies apis))
                      {| results := no_results; sheets := ∅ |}) w'
        ∧ requests w' = requests w ++ map (url_of config environment_name)
                                          (fetch_pairs companies apis)
        ∧ workbook w' = workbook w
        ∧ saved w' = saved w.
Proof.
  intros Hconn. unfold fetch_all. rewrite for_companies_pairs.
  by apply for_pairs_outcomes.
Qed.

(** C2. At the end of the fetch loop every pair of the cartesian product has
    one outcome, a table or a failure: the created list holds the labels of
    the pairs with a table, the failed list the labels (with the reason) of
    the pairs with a failure, each in the order of the pairs, so that each
    pair is in exactly one of the two lists. *)
Theorem every_pair_in_one_list (w : World) :
  has_connection config = true →
  ∃ (st : Staged) (w' : World) (os : list (string * string * (fetch_error + DataFrame))),
    fetch_all config ext environment_name companies apis w = Returned st w'
    ∧ os.*1 = fetch_pairs companies apis
    ∧ created (results st) = omap created_entry os
    ∧ failed (results st) = omap failed_entry os
    ∧ Forall (λ o, is_Some (created_entry o) ↔ failed_entry o = None) os
    ∧ length (created (results st)) + length (failed (results st))
      = length (fetch_pairs companies apis).
Proof.
  intros Hconn.
  destruct (fetch_all_outcomes w Hconn) as (w' & Hrun & _).
  eexists _, w', _. split; [exact Hrun|].
  rewrite record_all_created, record_all_failed. simpl.
  split_and!; [apply outcomes_pairs|done|done|..].
  - apply Forall_forall. intros [p [e|df]] _; unfold created_entry, failed_entry; simpl.
    + split; [by intros [? ?]|done].
    + split; [done|by eexists].
  - rewrite created_or_failed.
    by rewrite <- (outcomes_pairs config ext environment_name (length (requests w))
                     (fetch_pairs companies apis)) at 2; rewrite length_fmap.
Qed.

End RunResult.

Lemma every_pair_in_one_list_witness :
  ∃ (st : Staged) (w' : World) (os : list (string * string * (fetch_error + DataFrame))),
    fetch_all example_config flaky_client "TestSE" ["A"; "B"] ["X"] nothing_yet
    = Returned st w'
    ∧ os.*1 = fetch_pairs ["A"; "B"] ["X"]
    ∧ created (results st) = omap created_entry os
    ∧ failed (results st) = omap failed_entry os
    ∧ Forall (λ o, is_Some (created_entry o) ↔ failed_entry o = None) os
    ∧ length (created (results st)) + length (failed (results st))
      = length (fetch_pairs ["A"; "B"] ["X"]).
Proof.
  apply (every_pair_in_one_list example_config flaky_client "TestSE" ["A"; "B"] ["X"]
           nothing_yet).
  reflexivity.
Defined.
(** ** Failures *)

Section Failures.
Context (config : Config) (ext : Externals).
Context (environment_name : string) (companies apis : list string).

Lemma length_outcomes (n : nat) (pairs : list (string * string)) :
  length (outcomes config ext environment_name n pairs) = length pairs.
Proof. by rewrite <- (outcomes_pairs config ext environment_name n pairs) at 2; rewrite length_fmap. Qed.

(** C1. When the client raises on the request of a pair, whatever comes
    before and after the pair in the cartesian product: the loop reaches the
    pair; the pair's label with its reason category is appended to the failed
    list while the created list and the staged sheets stay as they were; and
    the loop goes on through every later pair, requesting each one and giving
    each one an entry of its own. *)
Theorem failure_recorded_and_loop_continues (w : World)
    (before after : list (string * string)) (p : string * string) (e : fetch_error) :
  has_connection config = true →
  fetch_pairs companies apis = before ++ p :: after →
  api_get ext (length (requests w) + length before) (url_of config environment_name p)
  = inl e →
  let env_label := PyStr.title (_env_type config) in
  ∃ (st1 st2 st3 : Staged) (w1 w2 w3 : World),
    for_pairs config ext environment_name env_label before
      {| results := no_results; sheets := ∅ |} w = Returned st1 w1
    ∧ fetch_pair config ext environment_name env_label p.1 p.2 st1 w1 = Returned st2 w2
    ∧ failed (results st2)
      = failed (results st1) ++ [entry_of p +:+ ": " +:+ reason_category e]
    ∧ created (results st2) = created (results st1)
    ∧ sheets st2 = sheets st1
    ∧ for_pairs config ext environment_name env_label after st2 w2 = Returned st3 w3
    ∧ fetch_all config ext environment_name companies apis w = Returned st3 w3
    ∧ requests w3 = requests w2 ++ map (url_of config environment_name) after
    ∧ length (created (results st3)) + length (failed (results st3))
      = length (created (results st2)) + length (failed (results st2)) + length after
    ∧ entry_of p +:+ ": " +:+ reason_category e ∈ failed (results st3).
Proof.
  intros Hconn Hpairs Hget env_label.
  destruct (for_pairs_outcomes config ext environment_name env_label before
              {| results := no_results; sheets := ∅ |} w Hconn)
    as (w1 & Hbefore & Hreq1 & _).
  set (st1 := record_all _ _) in Hbefore.
  destruct (fetch_pair_step config ext environment_name env_label p st1 w1 Hconn)
    as (w2 & Hstep & Hreq2 & _).
  assert (attempt ext (length (requests w1)) (url_of config environment_name p) = inl e)
    as Hattempt.
  { unfold attempt. by rewrite Hreq1, length_app, length_map, Hget. }
  rewrite Hattempt in Hstep. set (st2 := record_outcome p (inl e) st1) in Hstep.
  destruct (for_pairs_outcomes config ext environment_name env_label after st2 w2 Hconn)
    as (w3 & Hafter & Hreq3 & _).
  set (os := outcomes _ _ _ _ after) in Hafter.
  exists st1, st2, (record_all os st2), w1, w2, w3.
  split_and!; try done.
  - unfold fetch_all. rewrite for_companies_pairs, Hpairs, for_pairs_app.
    fold env_label. unfold bind. rewrite Hbefore.
    destruct p as [c a]. simpl in Hstep |- *. unfold bind. by rewrite Hstep.
  - rewrite record_all_created, record_all_failed, !length_app.
    pose proof (created_or_failed os) as Hos.
    unfold os in Hos at 3. rewrite length_outcomes in Hos. lia.
  - rewrite record_all_failed. apply elem_of_app. left.
    simpl. apply elem_of_app. right. apply list_elem_of_singleton. done.
Qed.

End Failures.

Lemma failure_recorded_and_loop_continues_witness :
  ∃ (st1 st2 st3 : Staged) (w1 w2 w3 : World),
    for_pairs example_config flaky_client "TestSE" (PyStr.title "test") []
      {| results := no_results; sheets := ∅ |} nothing_yet = Returned st1 w1
    ∧ fetch_pair example_config flaky_client "TestSE" (PyStr.title "test") "A" "X" st1 w1
      = Returned st2 w2
    ∧ failed (results st2) = failed (results st1) ++ ["BusinessCentral/A/X: timeout"]
    ∧ created (results st2) = created (results st1)
    ∧ sheets st2 = sheets st1
    ∧ for_pairs example_config flaky_client "TestSE" (PyStr.title "test") [("B", "X")] st2 w2
      = Returned st3 w3
    ∧ fetch_all example_config flaky_client "TestSE" ["A"; "B"] ["X"] nothing_yet
      = Returned st3 w3
    ∧ requests w3
      = requests w2 ++ map (url_of example_config "TestSE") [("B", "X")]
    ∧ length (created (results st3)) + length (failed (results st3))
      = length (created (results st2)) + length (failed (results st2)) + 1
    ∧ "BusinessCentral/A/X: timeout" ∈ failed (results st3).
Proof.
  apply (failure_recorded_and_loop_continues example_config flaky_client "TestSE"
           ["A"; "B"] ["X"] nothing_yet [] [("B", "X")] ("A", "X")
           (ApiTimeoutError "timed out"));
    reflexivity.
Defined.

(** ** The sheets of the workbook *)

Lemma stage_size (seen : list string) (staged : gmap string DataFrame)
    (new : list (string * DataFrame)) :
  (∀ name, name ∈ seen ↔ is_Some (staged !! name)) →
  size (foldl stage staged new) + collisions seen new.*1 = size staged + length new.
Proof.
  revert seen staged.
  induction new as [|[name df] new IH]; intros seen staged Hseen; csimpl; [simpl; lia|].
  assert (∀ k, k ∈ name :: seen ↔ is_Some (stage staged (name, df) !! k)) as Hseen'.
  { intros k. unfold stage. simpl.
    rewrite lookup_insert_is_Some, elem_of_cons, Hseen.
    destruct (decide (name = k)) as [->|Hne]; [by split; left|].
    split; [intros [?|?]; [done | by right] | intros [?|[_ ?]]; [done | by right]]. }
  specialize (IH _ _ Hseen').
  change (stage staged (name, df)) with (<[name:=df]> staged) in *.
  case_bool_decide as Hin.
  - apply Hseen in Hin.
    rewrite (map_size_insert_Some name df staged Hin) in IH. lia.
  - assert (staged !! name = None) as Hnew.
    { apply eq_None_not_Some. by rewrite <- Hseen. }
    rewrite (map_size_insert_None name df staged Hnew) in IH. lia.
Qed.

Lemma collisions_le (seen names : list string) : (collisions seen names ≤ length names)%nat.
Proof.
  revert seen. induction names as [|name names IH]; intros seen; simpl; [lia|].
  specialize (IH (name :: seen)). case_bool_decide; lia.
Qed.

Lemma all_created os :
  omap failed_entry os = [] → (omap staged_sheet os).*1 = map sheet_of os.*1.
Proof.
  induction os as [|[p [e|df]] os IH]; csimpl; [done|done|].
  intros Hnone. simpl. by rewrite IH.
Qed.

Lemma length_staged os :
  length (omap staged_sheet os) = length (omap created_entry os).
Proof.
  induction os as [|[p [e|df]] os IH]; csimpl; [done|done|]. simpl. by rewrite IH.
Qed.

Section Workbook.
Context (config : Config) (ext : Externals).
Context (environment_name : string) (companies apis : list string).

(** C5, amended. The sheets staged for the workbook are those of the pairs
    that succeeded: their number is the number of created entries, minus the
    number of succeeded pairs whose sheet name repeats that of an earlier
    succeeded pair.  When no pair fails, the succeeded pairs are all the
    pairs of the cartesian product. *)
Theorem sheets_are_succeeded_minus_collided (w : World) :
  has_connection config = true →
  ∃ (st : Staged) (w' : World) (os : list (string * string * (fetch_error + DataFrame))),
    fetch_all config ext environment_name companies apis w = Returned st w'
    ∧ os.*1 = fetch_pairs companies apis
    ∧ created (results st) = omap created_entry os
    ∧ failed (results st) = omap failed_entry os
    ∧ let names := (omap staged_sheet os).*1 in
      length names = length (created (results st))
      ∧ (collisions [] names ≤ length names)%nat
      ∧ size (sheets st) = length names - collisions [] names
      ∧ (failed (results st) = [] → names = map sheet_of (fetch_pairs companies apis)).
Proof.
  intros Hconn.
  destruct (fetch_all_outcomes config ext environment_name companies apis w Hconn)
    as (w' & Hrun & _).
  remember (outcomes config ext environment_name (length (requests w))
              (fetch_pairs companies apis)) as os eqn:Hos.
  eexists _, w', os. split; [exact Hrun|].
  rewrite record_all_created, record_all_failed, record_all_sheets. cbv zeta. simpl.
  split_and!; [subst os; apply outcomes_pairs|done|done|..].
  - rewrite length_fmap. apply length_staged.
  - apply collisions_le.
  - pose proof (stage_size [] ∅ (omap staged_sheet os)) as Hsize.
    rewrite map_size_empty in Hsize. rewrite length_fmap.
    cut (size (foldl stage ∅ (omap staged_sheet os))
         + collisions [] (omap staged_sheet os).*1 = length (omap staged_sheet os)); [lia|].
    apply Hsize. intros name. rewrite lookup_empty, elem_of_nil.
    split; [done|]. by intros [? ?].
  - intros Hnone. rewrite (all_created os Hnone). subst os. by rewrite outcomes_pairs.
Qed.

End Workbook.

Lemma sheets_are_succeeded_minus_collided_witness :
  ∃ (st : Staged) (w' : World) (os : list (string * string * (fetch_error + DataFrame))),
    fetch_all example_config flaky_client "TestSE" ["A"; "B"] ["X"] nothing_yet
    = Returned st w'
    ∧ os.*1 = fetch_pairs ["A"; "B"] ["X"]
    ∧ created (results st) = omap created_entry os
    ∧ failed (results st) = omap failed_entry os
    ∧ let names := (omap staged_sheet os).*1 in
      length names = length (created (results st))
      ∧ (collisions [] names ≤ length names)%nat
      ∧ size (sheets st) = length names - collisions [] names
      ∧ (failed (results st) = [] → names = map sheet_of (fetch_pairs ["A"; "B"] ["X"])).
Proof.
  apply (sheets_are_succeeded_minus_collided example_config flaky_client "TestSE"
           ["A"; "B"] ["X"] nothing_yet).
  reflexivity.
Defined.

(** C5 as stated fails on a pair that fails: one pair is attempted, no name
    collides, and no sheet is staged. *)
Lemma sheets_equal_attempted_counterexample :
  ∃ (st : Staged) (w' : World),
    fetch_all example_config timeout_client "TestSE" ["TXO"] ["IntercompanyPartner"]
      nothing_yet = Returned st w'
    ∧ size (sheets st) = 0
    ∧ failed (results st) = ["BusinessCentral/TXO/IntercompanyPartner: timeout"]
    ∧ length (fetch_pairs ["TXO"] ["IntercompanyPartner"])
      - collisions [] (map sheet_of (fetch_pairs ["TXO"] ["IntercompanyPartner"])) = 1
    ∧ size (sheets st)
      ≠ length (fetch_pairs ["TXO"] ["IntercompanyPartner"])
        - collisions [] (map sheet_of (fetch_pairs ["TXO"] ["IntercompanyPartner"])).
Proof.
  eexists _, _. split; [reflexivity|]. simpl.
  split_and!; [done|done|done|].
  rewrite map_size_empty. vm_compute. lia.
Qed.

(** Two pairs whose names agree on their first 31 allowed characters share a
    sheet: the later table replaces the earlier one. *)
Example colliding_names :
  ∃ (st : Staged) (w' : World),
    fetch_all example_config example_client "TestSE"
      ["Company"] ["SalesInvoiceLineItemsExtendedA"; "SalesInvoiceLineItemsExtendedB"]
      nothing_yet = Returned st w'
    ∧ length (created (results st)) = 2
    ∧ size (sheets st) = 1.
Proof. eexists _, _. split; [reflexivity|]. split; [done|]. by vm_compute. Qed.

(** ** The record normalizer *)

Lemma to_dataframe_placeholder (ext : Externals) (records : json) :
  truthy records = false → _to_dataframe ext records = inr placeholder_table.
Proof. intros Hfalsy. unfold _to_dataframe. by rewrite Hfalsy. Qed.

(** The row source of a body, shape by shape: the entry under ["value"] of
    a mapping with such an entry that is not null (so the records collection
    of a mapping that has one); the body itself when it is a bare list; no
    rows for null, a scalar, and a mapping whose ["value"] entry is absent or
    null.  It differs from the contract's row source only on a mapping whose
    entry is neither null nor a list.  A row source that is empty, or has the
    truth value false, gives the placeholder table. *)
Lemma row_source_by_shape (ext : Externals) (body : json) :
  let records := (coerce_records body).1 in
  (∀ rs, records_collection body = Some rs → records = JList rs)
  ∧ (∀ items, body = JList items → records = body)
  ∧ ((∀ entries, body ≠ JDict entries) → (∀ items, body ≠ JList items) → records = JList [])
  ∧ (∀ entries, body = JDict entries →
       dict_get "value" entries = None ∨ dict_get "value" entries = Some JNull →
       records = JList [])
  ∧ (∀ entries v, body = JDict entries → dict_get "value" entries = Some v →
       v ≠ JNull → records = v)
  ∧ (records = contract_rows body
     ∨ ∃ entries v, body = JDict entries ∧ dict_get "value" entries = Some v
                    ∧ v ≠ JNull ∧ (∀ items, v ≠ JList items))
  ∧ (records = JList [] → _to_dataframe ext records = inr placeholder_table)
  ∧ (truthy records = false → _to_dataframe ext records = inr placeholder_table).
Proof.
  simpl. split_and!.
  - intros rs. unfold records_collection, coerce_records.
    destruct body as [| | | | |entries]; try done.
    destruct (dict_get "value" entries) as [[]|]; try done. by intros [= ->].
  - by intros items ->.
  - intros Hdict Hlist. destruct body; try done.
    + by destruct (Hlist items).
    + by destruct (Hdict entries).
  - intros entries -> [Hv|Hv]; unfold coerce_records; by rewrite Hv.
  - intros entries v -> Hv Hnull. unfold coerce_records. rewrite Hv. simpl.
    by destruct v.
  - unfold contract_rows, records_collection, coerce_records.
    destruct body as [| | | | |entries]; try by left.
    destruct (dict_get "value" entries) as [v|] eqn:Hv; [|by left].
    destruct v; try (by left); right; by eexists _, _.
  - intros ->. by apply to_dataframe_placeholder.
  - apply to_dataframe_placeholder.
Qed.

(** C4. The code against the contract on the body [{"value": 5}], a mapping
    without a records collection: the contract's row source is empty and
    gives the placeholder table; the code's row source is the number, which
    it hands to pandas as it is; and with pandas raising on a number, the
    pair is recorded as failed with an unexpected error and stages no
    sheet. *)
Theorem scalar_value_entry_fails_the_pair :
  let body := JDict [("value", JNum 5)] in
  records_collection body = None
  ∧ contract_rows body = JList []
  ∧ (coerce_records body).1 = JNum 5
  ∧ (coerce_records body).1 ≠ contract_rows body
  ∧ (∀ ext, _to_dataframe ext (contract_rows body) = inr placeholder_table)
  ∧ (∀ ext, _to_dataframe ext (coerce_records body).1 = from_records_irregular ext (JNum 5))
  ∧ ∃ (st : Staged) (w : World),
      fetch_all example_config scalar_value_client "TestSE" ["TXO"] ["IntercompanyPartner"]
        nothing_yet = Returned st w
      ∧ created (results st) = []
      ∧ failed (results st) = ["BusinessCentral/TXO/IntercompanyPartner: unexpected error"]
      ∧ sheets st = ∅.
Proof.
  simpl. split_and!; try done.
  eexists _, _. split; [reflexivity|]. done.
Qed.

(** The shapes of the contract, each on an example. *)
Example normalizer_shapes :
  (coerce_records example_payload).1 = JList [JDict [("id", JNum 1)]; JDict [("id", JNum 2)]]
  ∧ (coerce_records (JList [JDict [("id", JNum 1)]])).1 = JList [JDict [("id", JNum 1)]]
  ∧ (coerce_records JNull).1 = JList []
  ∧ (coerce_records (JDict [("error", JStr "none")])).1 = JList []
  ∧ (coerce_records (JDict [("value", JList [])])).1 = JList []
  ∧ (coerce_records (JDict [("value", JNull)])).1 = JList []
  ∧ (coerce_records (JNum 7)).1 = JList [].
Proof. split_and!; reflexivity. Qed.

Lemma safe_sheet_name_spec_witness : _safe_sheet_name "[*]:\?/" = EmptyString.
Proof.
  destruct (safe_sheet_name_spec "[*]:\?/") as (_ & _ & _ & Hempty).
  apply Hempty. apply (bool_decide_unpack _). vm_compute. reflexivity.
Defined.
(** ** The run as a whole *)

Section Run.
Context (config : Config) (ext : Externals).

(** The keys read at the start of a run (lines 95-99) and the two lists.
    When such a key is absent, or the list of companies or of resources is
    empty, [main] raises a configuration error
    (a [ConfigurationError] that names the key, or the [HelpfulError] about
    the empty lists) and leaves the world as it found it: no request is
    issued, nothing is logged, no workbook is written and no summary saved. *)
Theorem configuration_errors_are_fatal :
  required_key_missing config ∨ companies_or_apis_empty config →
  ∃ e, main config ext nothing_yet = Raised e nothing_yet
       ∧ is_configuration_error e
       ∧ (required_key_missing config →
          ∃ key, e = ConfigurationError ("Missing configuration key: '" +:+ key +:+ "'"))
       ∧ (¬ required_key_missing config → e = no_companies_or_apis).
Proof.
  unfold required_key_missing, companies_or_apis_empty, main, read_settings, bind, lift.
  destruct (business_central config) as [[env cs rs]|]; simpl;
    [|intros _; eexists; split_and!; [done|done|by eexists|tauto]].
  destruct env as [env|]; simpl;
    [|intros _; destruct (script_behavior config);
      eexists; split_and!; try done; try (by eexists); try tauto; intros []; tauto].
  destruct cs as [cs|]; simpl;
    [|intros _; destruct (script_behavior config);
      eexists; split_and!; try done; try (by eexists); try tauto; intros []; tauto].
  destruct rs as [rs|]; simpl;
    [|intros _; destruct (script_behavior config);
      eexists; split_and!; try done; try (by eexists); try tauto; intros []; tauto].
  destruct (script_behavior config) as [[f]|]; simpl;
    [|intros _; eexists; split_and!; [done|done|by eexists|tauto]].
  destruct f as [f|]; simpl;
    [|intros _; eexists; split_and!; [done|done|by eexists|tauto]].
  intros [Hmissing | (bc & [= <-] & Hempty)].
  { destruct Hmissing as [?|[?|[?|?]]]; done. }
  simpl in Hempty.
  assert ((Nat.eqb (length cs) 0 || Nat.eqb (length rs) 0)%bool = true) as ->.
  { destruct Hempty as [[= ->] | [= ->]]; simpl; [done|]. apply orb_true_r. }
  eexists. split_and!; [done|done| |done].
  intros [?|[?|[?|?]]]; done.
Qed.

(** A connection key that is absent shows at the first pair, as the
    [KeyError] of the indexing, before the pair is requested. *)
Lemma missing_connection_is_KeyError (environment_name excel_filename : string)
    (companies apis : list string) :
  read_settings config = inr (environment_name, companies, apis, excel_filename) →
  companies ≠ [] → apis ≠ [] →
  has_connection config = false →
  ∃ key, main config ext nothing_yet = Raised (KeyError key) nothing_yet.
Proof.
  intros Hsettings Hcs Has Hconn.
  unfold main, bind, lift. rewrite Hsettings. simpl.
  destruct companies as [|c cs]; [done|]. destruct apis as [|a rs]; [done|]. simpl.
  unfold fetch_all. simpl. unfold bind, fetch_pair, bind, lift.
  destruct (build_bc_url_KeyError config environment_name c a) as [key ->];
    [|by exists key].
  unfold has_connection in Hconn.
  destruct (global config) as [g|]; [right; exists g; split; [done|] | by left].
  destruct (api_base_url g), (api_version g), (tenant_id g); simpl in Hconn; try done;
    tauto.
Qed.

(** [main] from the end of the fetch loop on. *)
Lemma main_after_fetch (environment_name excel_filename : string)
    (companies apis : list string) (st : Staged) (w : World) :
  read_settings config = inr (environment_name, companies, apis, excel_filename) →
  companies ≠ [] → apis ≠ [] →
  fetch_all config ext environment_name companies apis nothing_yet = Returned st w →
  main config ext nothing_yet
  = match excel_write ext (get_path ext excel_filename) (sheets st) with
    | Some _ =>
        Raised (FileOperationError ("Failed to write Excel file: "
                                    +:+ path_text (get_path ext excel_filename))) w
    | None =>
        Returned tt
          {| requests := requests w;
             log := (log w
                     ++ [(INFO, "[" +:+ PyStr.title (_env_type config)
                                +:+ "/Excel/Write] Wrote "
                                +:+ path_text (get_path ext excel_filename))])
                    ++ [(INFO, summary (results st))];
             workbook := Some (get_path ext excel_filename, sheets st);
             saved := saved w
                      ++ [("bc-fetch-summary_" +:+ get_utc_timestamp ext +:+ ".json",
                           summary_of config ext environment_name companies apis
                             excel_filename (results st))] |}
    end.
Proof.
  intros Hsettings Hcs Has Hrun.
  unfold main, bind, lift. rewrite Hsettings. simpl.
  destruct companies as [|c cs]; [done|]. destruct apis as [|a rs]; [done|]. simpl.
  rewrite Hrun. unfold write_excel.
  destruct (excel_write ext _ _); reflexivity.
Qed.

End Run.

(** C8. The code against the claim on a configuration that lacks the
    [tenant-id] of the connection, a key the run requires: the settings of
    lines 95-99 are read and both lists hold a name, so the run goes on to
    the first pair, where [_build_bc_url] raises [KeyError] and nothing
    turns it into a configuration error.  No request has been issued and
    nothing is written or saved, as the claim says; but the exception is the
    bare [KeyError], while a key of the [business-central] section that is
    absent is reported as a [ConfigurationError] by lines 100-101. *)
Theorem missing_connection_key_is_not_wrapped :
  read_settings config_without_tenant_id
  = inr ("TestSE", ["TXO"], ["IntercompanyPartner"], "bc.xlsx")
  ∧ has_connection config_without_tenant_id = false
  ∧ (∀ ext, main config_without_tenant_id ext nothing_yet
            = Raised (KeyError "tenant-id") nothing_yet)
  ∧ ¬ is_configuration_error (KeyError "tenant-id")
  ∧ (∀ ext, main config_without_apis ext nothing_yet
            = Raised (ConfigurationError "Missing configuration key: 'apis'") nothing_yet)
  ∧ is_configuration_error (ConfigurationError "Missing configuration key: 'apis'").
Proof.
  split_and!; try done.
  intros H. exact H.
Qed.
Section Reports.
Context (config : Config) (ext : Externals).
Context (environment_name excel_filename : string).

(** C10. With the settings read, both lists non-empty and the connection
    keys present, the fetch loop ends with nothing saved and no workbook
    written.  If writing the workbook then raises, [main] raises
    [FileOperationError] in that very world: no summary is saved and no
    status line is logged.  If writing succeeds, [main] returns with the
    workbook written, the summary record saved and the status line as the
    last line logged, whatever the outcomes of the pairs. *)
Theorem write_failure_is_fatal (companies apis : list string) :
  read_settings config = inr (environment_name, companies, apis, excel_filename) →
  companies ≠ [] → apis ≠ [] →
  has_connection config = true →
  ∃ (st : Staged) (w : World),
    fetch_all config ext environment_name companies apis nothing_yet = Returned st w
    ∧ saved w = [] ∧ workbook w = None
    ∧ (∀ text, excel_write ext (get_path ext excel_filename) (sheets st) = Some text →
         main config ext nothing_yet
         = Raised (FileOperationError ("Failed to write Excel file: "
                                       +:+ path_text (get_path ext excel_filename))) w)
    ∧ (excel_write ext (get_path ext excel_filename) (sheets st) = None →
         ∃ w', main config ext nothing_yet = Returned tt w'
               ∧ requests w' = requests w
               ∧ workbook w' = Some (get_path ext excel_filename, sheets st)
               ∧ saved w'
                 = [("bc-fetch-summary_" +:+ get_utc_timestamp ext +:+ ".json",
                     summary_of config ext environment_name companies apis excel_filename
                       (results st))]
               ∧ last (log w') = Some (INFO, summary (results st))).
Proof.
  intros Hsettings Hcs Has Hconn.
  destruct (fetch_all_outcomes config ext environment_name companies apis nothing_yet Hconn)
    as (w & Hrun & _ & Hwb & Hsaved).
  eexists _, w. split; [exact Hrun|]. simpl in Hwb, Hsaved.
  split_and!; [done|done|..].
  - intros text Hwrite.
    rewrite (main_after_fetch config ext _ _ _ _ _ _ Hsettings Hcs Has Hrun).
    by rewrite Hwrite.
  - intros Hwrite.
    rewrite (main_after_fetch config ext _ _ _ _ _ _ Hsettings Hcs Has Hrun).
    rewrite Hwrite. eexists. split; [reflexivity|]. simpl.
    rewrite Hsaved, last_snoc. done.
Qed.

(** C9. With companies [TXO], resources [IntercompanyPartner] and a client
    that answers with the two records: the loop stages exactly one sheet,
    [TXO__IntercompanyPartner], of two data rows; one entry is created and
    none failed; the status line reads "All 1 operations successful" (with
    the counts after it), and it is the last line of a run whose workbook is
    written. *)
Theorem example_run :
  read_settings config
  = inr (environment_name, ["TXO"], ["IntercompanyPartner"], excel_filename) →
  has_connection config = true →
  (∀ n url, api_get ext n url = inr example_payload) →
  ∃ (st : Staged) (w : World) (df : DataFrame),
    fetch_all config ext environment_name ["TXO"] ["IntercompanyPartner"] nothing_yet
    = Returned st w
    ∧ sheets st = {["TXO__IntercompanyPartner" := df]}
    ∧ size (sheets st) = 1
    ∧ df = {| columns := ["id"]; rows := [[Some (JNum 1)]; [Some (JNum 2)]] |}
    ∧ df_len df = 2
    ∧ created (results st) = ["BusinessCentral/TXO/IntercompanyPartner"]
    ∧ failed (results st) = []
    ∧ summary (results st) = "✅ All 1 operations successful: 1 created, 0 updated"
    ∧ PyStr.contains "All 1 operations successful" (summary (results st)) = true
    ∧ (excel_write ext (get_path ext excel_filename) (sheets st) = None →
       ∃ w', main config ext nothing_yet = Returned tt w'
             ∧ workbook w' = Some (get_path ext excel_filename, sheets st)
             ∧ last (log w')
               = Some (INFO, "✅ All 1 operations successful: 1 created, 0 updated")
             ∧ (sum_created <$> (snd <$> saved w'))
               = [["BusinessCentral/TXO/IntercompanyPartner"]]
             ∧ (sum_failed <$> (snd <$> saved w')) = [[]]).
Proof.
  intros Hsettings Hconn Hget.
  destruct (fetch_all_outcomes config ext environment_name
              ["TXO"] ["IntercompanyPartner"] nothing_yet Hconn)
    as (w & Hrun & _ & _ & Hsaved).
  simpl in Hrun, Hsaved. unfold attempt in Hrun. rewrite Hget in Hrun.
  unfold record_all in Hrun. simpl in Hrun.
  eexists _, w, _. split; [exact Hrun|]. simpl.
  split; [apply insert_empty|].
  split; [rewrite insert_empty; apply map_size_singleton|].
  do 6 (split; [reflexivity|]).
  intros Hwrite.
  rewrite (main_after_fetch config ext _ _ _ _ _ _ Hsettings
             ltac:(discriminate) ltac:(discriminate) Hrun).
  simpl. rewrite Hwrite. eexists. split; [reflexivity|]. simpl.
  rewrite Hsaved, last_snoc. done.
Qed.

End Reports.

Lemma write_failure_is_fatal_witness :
  ∃ (st : Staged) (w : World),
    fetch_all example_config read_only_disk "TestSE" ["TXO"] ["IntercompanyPartner"]
      nothing_yet = Returned st w
    ∧ saved w = [] ∧ workbook w = None
    ∧ (∀ text, excel_write read_only_disk (get_path read_only_disk "bc.xlsx") (sheets st)
               = Some text →
         main example_config read_only_disk nothing_yet
         = Raised (FileOperationError ("Failed to write Excel file: "
                                       +:+ path_text (get_path read_only_disk "bc.xlsx"))) w)
    ∧ (excel_write read_only_disk (get_path read_only_disk "bc.xlsx") (sheets st) = None →
         ∃ w', main example_config read_only_disk nothing_yet = Returned tt w'
               ∧ requests w' = requests w
               ∧ workbook w' = Some (get_path read_only_disk "bc.xlsx", sheets st)
               ∧ saved w'
                 = [("bc-fetch-summary_" +:+ get_utc_timestamp read_only_disk +:+ ".json",
                     summary_of example_config read_only_disk "TestSE"
                       ["TXO"] ["IntercompanyPartner"] "bc.xlsx" (results st))]
               ∧ last (log w') = Some (INFO, summary (results st))).
Proof.
  apply (write_failure_is_fatal example_config read_only_disk "TestSE" "bc.xlsx"
           ["TXO"] ["IntercompanyPartner"]);
    [reflexivity | discriminate | discriminate | reflexivity].
Defined.

Lemma example_run_witness :
  ∃ (st : Staged) (w : World) (df : DataFrame),
    fetch_all example_config example_client "TestSE" ["TXO"] ["IntercompanyPartner"]
      nothing_yet = Returned st w
    ∧ sheets st = {["TXO__IntercompanyPartner" := df]}
    ∧ size (sheets st) = 1
    ∧ df = {| columns := ["id"]; rows := [[Some (JNum 1)]; [Some (JNum 2)]] |}
    ∧ df_len df = 2
    ∧ created (results st) = ["BusinessCentral/TXO/IntercompanyPartner"]
    ∧ failed (results st) = []
    ∧ summary (results st) = "✅ All 1 operations successful: 1 created, 0 updated"
    ∧ PyStr.contains "All 1 operations successful" (summary (results st)) = true
    ∧ (excel_write example_client (get_path example_client "bc.xlsx") (sheets st) = None →
       ∃ w', main example_config example_client nothing_yet = Returned tt w'
             ∧ workbook w' = Some (get_path example_client "bc.xlsx", sheets st)
             ∧ last (log w')
               = Some (INFO, "✅ All 1 operations successful: 1 created, 0 updated")
             ∧ (sum_created <$> (snd <$> saved w'))
               = [["BusinessCentral/TXO/IntercompanyPartner"]]
             ∧ (sum_failed <$> (snd <$> saved w')) = [[]]).
Proof.
  apply (example_run example_config example_client "TestSE" "bc.xlsx");
    [reflexivity | reflexivity | intros n url; reflexivity].
Defined.

Lemma configuration_errors_are_fatal_witness :
  ∃ e, main config_without_apis example_client nothing_yet = Raised e nothing_yet
       ∧ is_configuration_error e
       ∧ (required_key_missing config_without_apis →
          ∃ key, e = ConfigurationError ("Missing configuration key: '" +:+ key +:+ "'"))
       ∧ (¬ required_key_missing config_without_apis → e = no_companies_or_apis).
Proof.
  apply (configuration_errors_are_fatal config_without_apis example_client).
  left. simpl. right. right. left. reflexivity.
Defined.

(** A run whose every pair fails still writes its summary and its status
    line when the writer lets the workbook through. *)
Example all_pairs_failed :
  ∃ w, main example_config timeout_client nothing_yet = Returned tt w
       ∧ (sum_failed <$> (snd <$> saved w))
         = [["BusinessCentral/TXO/IntercompanyPartner: timeout"]]
       ∧ last (log w)
         = Some (INFO, "❌ Completed with 1 failures: 0 created, 0 updated, 1 failed").
Proof. eexists. split; [vm_compute; reflexivity|]. split; reflexivity. Qed.

(** The run on the example, when the workbook cannot be written. *)
Example workbook_not_written :
  ∃ w, main example_config read_only_disk nothing_yet
       = Raised (FileOperationError "Failed to write Excel file: output/bc.xlsx") w
       ∧ saved w = []
       ∧ workbook w = None
       ∧ (log w).*2
         = ["[Test/TXO/IntercompanyPartner] GET https://api.businesscentral.dynamics.com/v2.0/tenant/TestSE/ODataV4/Company('TXO')/IntercompanyPartner";
            "[Test/TXO/IntercompanyPartner] Retrieved 2 rows"].
Proof. eexists. split; [vm_compute; reflexivity|]. split_and!; reflexivity. Qed.

(** Two companies and one resource, the first answer without records: both
    sheets are staged, the first with the placeholder column and no row. *)
Example empty_and_full_sheets :
  ∃ (st : Staged) (w : World) (b : DataFrame),
    fetch_all example_config empty_then_three "TestSE" ["A"; "B"] ["X"] nothing_yet
    = Returned st w
    ∧ sheets st !! "A__X" = Some placeholder_table
    ∧ sheets st !! "B__X" = Some b
    ∧ df_len b = 3
    ∧ size (sheets st) = 2
    ∧ created (results st) = ["BusinessCentral/A/X"; "BusinessCentral/B/X"]
    ∧ failed (results st) = [].
Proof.
  eexists _, _, _. split; [reflexivity|]. simpl.
  split_and!; reflexivity.
Qed.
(** * Further properties *)

(** ** Sheet names beyond the contract *)

Section MoreSheetNames.
Import PyStr PyStrFacts.

Lemma cleaned_chars_app (s t : string) :
  cleaned_chars (s +:+ t) = cleaned_chars s ++ cleaned_chars t.
Proof. unfold cleaned_chars. by rewrite chars_app, filter_app. Qed.

Lemma cleaned_chars_separator (company api_name : string) :
  cleaned_chars (company +:+ "__" +:+ api_name)
  = cleaned_chars company ++ "_"%char :: "_"%char :: cleaned_chars api_name.
Proof.
  rewrite !cleaned_chars_app. reflexivity.
Qed.

(** X1. [_safe_sheet_name] leaves a name as it is exactly when the name
    already fits: at most 31 characters, none of them forbidden. *)
Theorem safe_sheet_name_fixed_points (name : string) :
  _safe_sheet_name name = name
  ↔ (String.length name ≤ 31)%nat ∧ Forall (λ ch, ch ∉ forbidden) (chars name).
Proof.
  split.
  - intros Hfix. pose proof (safe_sheet_name_chars name) as Hsafe.
    rewrite Hfix in Hsafe. apply (f_equal chars) in Hsafe.
    rewrite chars_join in Hsafe. split.
    + rewrite length_chars, Hsafe, length_take. lia.
    + rewrite Hsafe. apply Forall_take, cleaned_chars_allowed.
  - intros [Hlen Hallowed]. rewrite safe_sheet_name_chars. unfold cleaned_chars.
    rewrite filter_allowed_id by done.
    rewrite take_ge by (by rewrite <- length_chars). apply join_chars.
Qed.

(** X2. A forbidden character makes no difference to the sheet name: a name
    and the same name with a forbidden character put anywhere in it get the
    same sheet. *)
Theorem forbidden_character_is_dropped (before after : string) (ch : ascii) :
  ch ∈ forbidden →
  _safe_sheet_name (before +:+ String ch after) = _safe_sheet_name (before +:+ after).
Proof.
  intros Hbad. rewrite !safe_sheet_name_chars, !cleaned_chars_app.
  do 3 f_equal. unfold cleaned_chars. simpl.
  rewrite filter_cons_False; [done|]. intros Hok. by apply Hok.
Qed.

(** X3. A company whose name has 31 allowed characters or more takes the
    whole sheet name: all its resources get the same sheet, whatever their
    names. *)
Theorem long_company_hides_resource (company api1 api2 : string) :
  (31 ≤ length (cleaned_chars company))%nat →
  sheet_of (company, api1) = sheet_of (company, api2).
Proof.
  intros Hlong. unfold sheet_of. simpl.
  rewrite !safe_sheet_name_chars, !cleaned_chars_separator.
  by rewrite !take_app_le.
Qed.

Lemma sheet_of_fits (p : string * string) :
  (2 ≤ String.length (sheet_of p) ≤ 31)%nat
  ∧ Forall (λ ch, ch ∉ forbidden) (chars (sheet_of p)).
Proof.
  unfold sheet_of. rewrite safe_sheet_name_chars.
  rewrite length_join, chars_join, length_take. split.
  - rewrite cleaned_chars_separator, length_app.
    change (length (_ :: _ :: ?l)) with (S (S (length l))). lia.
  - apply Forall_take, cleaned_chars_allowed.
Qed.

End MoreSheetNames.

Lemma forbidden_character_is_dropped_witness :
  _safe_sheet_name ("TXO" +:+ String "/"%char "Sales") = _safe_sheet_name ("TXO" +:+ "Sales").
Proof.
  apply (forbidden_character_is_dropped "TXO" "Sales" "/"%char).
  apply (bool_decide_unpack _). reflexivity.
Defined.

Lemma long_company_hides_resource_witness :
  sheet_of ("Contoso Holdings International AB", "Customers")
  = sheet_of ("Contoso Holdings International AB", "Vendors").
Proof.
  apply (long_company_hides_resource "Contoso Holdings International AB"
           "Customers" "Vendors").
  vm_compute. lia.
Defined.


(** ** Request URLs beyond the template *)

Section MoreUrls.
Import PyStr PyStrFacts.

Lemma rstrip_only_slashes (k : nat) :
  rstrip ["/"%char] (join (replicate k "/"%char)) = EmptyString.
Proof. induction k as [|k IH]; simpl; [done|]. by rewrite IH. Qed.

Lemma rstrip_trailing_slashes (s : string) (k : nat) :
  rstrip ["/"%char] (s +:+ join (replicate k "/"%char)) = rstrip ["/"%char] s.
Proof.
  induction s as [|c s IH].
  - rewrite app_empty. apply rstrip_only_slashes.
  - rewrite app_String. simpl. by rewrite IH.
Qed.

(** X4. Slashes at the end of the base URL make no difference to the
    request URL: two configurations whose base URLs differ by trailing
    slashes only request the same URL for every pair. *)
Theorem trailing_slashes_do_not_matter (config1 config2 : Config)
    (base version tenant : string) (k : nat) (environment company resource : string) :
  global config1 = Some {| api_base_url := Some (base +:+ join (replicate k "/"%char));
                           api_version := Some version; tenant_id := Some tenant |} →
  global config2 = Some {| api_base_url := Some base;
                           api_version := Some version; tenant_id := Some tenant |} →
  _build_bc_url config1 environment company resource
  = _build_bc_url config2 environment company resource.
Proof.
  intros H1 H2. unfold _build_bc_url. rewrite H1, H2. simpl.
  by rewrite rstrip_trailing_slashes.
Qed.

End MoreUrls.

Lemma trailing_slashes_do_not_matter_witness :
  _build_bc_url example_config "TestSE" "TXO" "IntercompanyPartner"
  = _build_bc_url config_without_slashes "TestSE" "TXO" "IntercompanyPartner".
Proof.
  apply (trailing_slashes_do_not_matter example_config config_without_slashes
           "https://api.businesscentral.dynamics.com" "v2.0" "tenant" 2);
    reflexivity.
Defined.

(** ** The fetch loop: requests, status line, log *)

Lemma lookup_map {A B} (f : A → B) (l : list A) (i : nat) :
  map f l !! i = f <$> (l !! i).
Proof. revert i. induction l as [|x l IH]; intros [|i]; simpl; done. Qed.

Lemma list_prod_lookup {A B} (l1 : list A) (l2 : list B) (i j : nat) (a : A) (b : B) :
  l1 !! i = Some a → l2 !! j = Some b →
  list_prod l1 l2 !! (i * length l2 + j) = Some (a, b).
Proof.
  revert i. induction l1 as [|x l1 IH]; intros i Ha Hb; [done|].
  simpl. destruct i as [|i]; simpl in Ha |- *.
  - injection Ha as ->. rewrite lookup_app_l.
    + by rewrite lookup_map, Hb.
    + rewrite length_map. by eapply lookup_lt_Some.
  - rewrite lookup_app_r by (rewrite length_map; lia).
    rewrite length_map.
    replace (length l2 + i * length l2 + j - length l2) with (i * length l2 + j) by lia.
    by apply IH.
Qed.

Lemma record_all_untouched os st :
  updated (results (record_all os st)) = updated (results st)
  ∧ expected_errors (results (record_all os st)) = expected_errors (results st).
Proof.
  revert st. induction os as [|[p r] os IH]; intros st; [done|].
  simpl. destruct (IH (record_outcome p r st)) as [-> ->]. by destruct r.
Qed.

Section MoreFetchLoop.
Context (config : Config) (ext : Externals).
Context (environment_name : string) (companies apis : list string).

(** X5. The loop issues one request per pair, whatever the answers: as many
    requests as companies times resources, the pair of the [i]-th company
    and the [j]-th resource being request number [i * |resources| + j], at
    the URL of that pair. *)
Theorem one_request_per_pair :
  has_connection config = true →
  ∃ (st : Staged) (w : World),
    fetch_all config ext environment_name companies apis nothing_yet = Returned st w
    ∧ length (requests w) = length companies * length apis
    ∧ ∀ i j company api_name,
        companies !! i = Some company → apis !! j = Some api_name →
        requests w !! (i * length apis + j)
        = Some (url_of config environment_name (company, api_name)).
Proof.
  intros Hconn.
  destruct (fetch_all_outcomes config ext environment_name companies apis nothing_yet Hconn)
    as (w & Hrun & Hreq & _).
  eexists _, w. split; [exact Hrun|]. simpl in Hreq. rewrite Hreq.
  split.
  - unfold fetch_pairs. by rewrite length_map, length_prod.
  - intros i j company api_name Hi Hj.
    rewrite lookup_map. unfold fetch_pairs.
    by rewrite (list_prod_lookup companies apis i j company api_name Hi Hj).
Qed.

(** X6. The loop never adds to the updated list and never counts an expected
    error; so the status line of a run is one of two: with no failure, all
    the pairs as successful and created; with failures, their number and the
    number of created entries, the two adding up to the number of pairs. *)
Theorem status_line_of_a_run :
  has_connection config = true →
  ∃ (st : Staged) (w : World),
    fetch_all config ext environment_name companies apis nothing_yet = Returned st w
    ∧ updated (results st) = []
    ∧ expected_errors (results st) = 0%Z
    ∧ length (created (results st)) + length (failed (results st))
      = length companies * length apis
    ∧ summary (results st)
      = if bool_decide (failed (results st) = [])
        then "✅ All " +:+ PyStr.of_nat (length companies * length apis)
             +:+ " operations successful: "
             +:+ PyStr.of_nat (length companies * length apis) +:+ " created, 0 updated"
        else "❌ Completed with " +:+ PyStr.of_nat (length (failed (results st)))
             +:+ " failures: " +:+ PyStr.of_nat (length (created (results st)))
             +:+ " created, 0 updated, "
             +:+ PyStr.of_nat (length (failed (results st))) +:+ " failed".
Proof.
  intros Hconn.
  destruct (fetch_all_outcomes config ext environment_name companies apis nothing_yet Hconn)
    as (w & Hrun & _).
  eexists _, w. split; [exact Hrun|].
  set (os := outcomes _ _ _ _ _).
  set (st := record_all os _).
  destruct (record_all_untouched os {| results := no_results; sheets := ∅ |})
    as [Hupdated Hexpected].
  fold st in Hupdated, Hexpected. simpl in Hupdated, Hexpected.
  assert (length (created (results st)) + length (failed (results st))
          = length companies * length apis) as Hsum.
  { unfold st. rewrite record_all_created, record_all_failed. simpl.
    rewrite created_or_failed. unfold os.
    rewrite length_outcomes. unfold fetch_pairs. apply length_prod. }
  split_and!; [done..|].
  unfold summary. rewrite Hupdated, Hexpected. simpl.
  case_bool_decide as Hfailed.
  - rewrite Hfailed in Hsum |- *. simpl in Hsum |- *.
    rewrite Nat.add_0_r in *. by rewrite Hsum.
  - destruct (failed (results st)) as [|f fs]; [done|]. reflexivity.
Qed.

End MoreFetchLoop.

Lemma one_request_per_pair_witness :
  ∃ (st : Staged) (w : World),
    fetch_all example_config flaky_client "TestSE" ["A"; "B"] ["X"; "Y"] nothing_yet
    = Returned st w
    ∧ length (requests w) = length ["A"; "B"] * length ["X"; "Y"]
    ∧ ∀ i j company api_name,
        ["A"; "B"] !! i = Some company → ["X"; "Y"] !! j = Some api_name →
        requests w !! (i * length ["X"; "Y"] + j)
        = Some (url_of example_config "TestSE" (company, api_name)).
Proof.
  apply (one_request_per_pair example_config flaky_client "TestSE" ["A"; "B"] ["X"; "Y"]).
  reflexivity.
Defined.

Lemma status_line_of_a_run_witness :
  ∃ (st : Staged) (w : World),
    fetch_all example_config flaky_client "TestSE" ["A"; "B"] ["X"] nothing_yet
    = Returned st w
    ∧ updated (results st) = []
    ∧ expected_errors (results st) = 0%Z
    ∧ length (created (results st)) + length (failed (results st))
      = length ["A"; "B"] * length ["X"]
    ∧ summary (results st)
      = if bool_decide (failed (results st) = [])
        then "✅ All " +:+ PyStr.of_nat (length ["A"; "B"] * length ["X"])
             +:+ " operations successful: "
             +:+ PyStr.of_nat (length ["A"; "B"] * length ["X"]) +:+ " created, 0 updated"
        else "❌ Completed with " +:+ PyStr.of_nat (length (failed (results st)))
             +:+ " failures: " +:+ PyStr.of_nat (length (created (results st)))
             +:+ " created, 0 updated, "
             +:+ PyStr.of_nat (length (failed (results st))) +:+ " failed".
Proof.
  apply (status_line_of_a_run example_config flaky_client "TestSE" ["A"; "B"] ["X"]).
  reflexivity.
Defined.

Lemma level_count_app (level : Level) (l1 l2 : list (Level * string)) :
  level_count level (l1 ++ l2) = level_count level l1 + level_count level l2.
Proof. unfold level_count. by rewrite filter_app, length_app. Qed.

Section LogLines.
Context (config : Config) (ext : Externals).
Context (environment_name env_label : string).

(** The lines a pair logs: its request, a warning at most, and its outcome,
    an error exactly when the pair fails. *)
Lemma fetch_pair_log (p : string * string) (st : Staged) (w : World) :
  has_connection config = true →
  ∃ (w' : World) (lines : list (Level * string)),
    fetch_pair config ext environment_name env_label p.1 p.2 st w
    = Returned (record_outcome p
                  (attempt ext (length (requests w)) (url_of config environment_name p)) st)
               w'
    ∧ requests w' = requests w ++ [url_of config environment_name p]
    ∧ log w' = log w ++ lines
    ∧ level_count ERROR lines
      = length (omap failed_entry
                  [(p, attempt ext (length (requests w)) (url_of config environment_name p))])
    ∧ level_count INFO lines
      = 1 + length (omap created_entry
                      [(p, attempt ext (length (requests w))
                             (url_of config environment_name p))])
    ∧ (level_count WARNING lines ≤ 1)%nat.
Proof.
  intros Hconn. unfold fetch_pair, attempt, bind.
  rewrite (build_bc_url_connected config environment_name p Hconn). simpl.
  destruct (api_get ext _ _) as [e|payload].
  - destruct e; simpl; eexists _, [_; _]; split_and!; try reflexivity;
      simpl; try (by rewrite <- app_assoc); vm_compute; lia.
  - destruct (coerce_records payload) as [records coerced]. simpl.
    destruct coerced; simpl;
      (destruct (_to_dataframe ext records) as [e|df]; [destruct e|]; simpl).
    all: first [ eexists _, [_; _; _]; split_and!; try reflexivity;
                 simpl; try (by rewrite <- !app_assoc); vm_compute; lia
               | eexists _, [_; _]; split_and!; try reflexivity;
                 simpl; try (by rewrite <- !app_assoc); vm_compute; lia ].
Qed.

Lemma for_pairs_log (pairs : list (string * string)) (st : Staged) (w : World) :
  has_connection config = true →
  ∃ (w' : World) (lines : list (Level * string)),
    for_pairs config ext environment_name env_label pairs st w
    = Returned (record_all (outcomes config ext environment_name
                              (length (requests w)) pairs) st) w'
    ∧ requests w' = requests w ++ map (url_of config environment_name) pairs
    ∧ log w' = log w ++ lines
    ∧ level_count ERROR lines
      = length (omap failed_entry
                  (outcomes config ext environment_name (length (requests w)) pairs))
    ∧ level_count INFO lines
      = length pairs
        + length (omap created_entry
                    (outcomes config ext environment_name (length (requests w)) pairs))
    ∧ (level_count WARNING lines ≤ length pairs)%nat.
Proof.
  intros Hconn. revert st w.
  induction pairs as [|p pairs IH]; intros st w.
  - exists w, []. rewrite !app_nil_r. done.
  - destruct (fetch_pair_log p st w Hconn)
      as (w1 & lines1 & Hstep & Hreq1 & Hlog1 & Herr1 & Hinfo1 & Hwarn1).
    destruct p as [c a]. simpl in Hstep |- *. unfold bind. rewrite Hstep.
    destruct (IH (record_outcome (c, a)
                    (attempt ext (length (requests w))
                       (url_of config environment_name (c, a))) st) w1)
      as (w2 & lines2 & Hrest & Hreq2 & Hlog2 & Herr2 & Hinfo2 & Hwarn2).
    rewrite Hreq1, length_app, Nat.add_1_r in Hrest, Herr2, Hinfo2.
    exists w2, (lines1 ++ lines2).
    rewrite Hrest, Hreq2, Hlog2, Hreq1, Hlog1, <- !app_assoc, !level_count_app.
    rewrite Herr1, Herr2, Hinfo1, Hinfo2.
    split_and!; try done.
    + by destruct (attempt ext _ _).
    + destruct (attempt ext _ _); csimpl; simpl; lia.
    + lia.
Qed.

End LogLines.

Section MoreRunResult.
Context (config : Config) (ext : Externals).
Context (environment_name : string) (companies apis : list string).

(** X7. The log of the fetch loop tells the Run Result: it holds one error
    line per failed entry, one information line per pair for its request and
    one more per created entry, and at most one warning per pair. *)
Theorem log_tells_the_run_result :
  has_connection config = true →
  ∃ (st : Staged) (w : World),
    fetch_all config ext environment_name companies apis nothing_yet = Returned st w
    ∧ level_count ERROR (log w) = length (failed (results st))
    ∧ level_count INFO (log w)
      = length companies * length apis + length (created (results st))
    ∧ (level_count WARNING (log w) ≤ length companies * length apis)%nat.
Proof.
  intros Hconn. unfold fetch_all. 
  destruct (for_pairs_log config ext environment_name (PyStr.title (_env_type config))
              (fetch_pairs companies apis) {| results := no_results; sheets := ∅ |}
              nothing_yet Hconn)
    as (w & lines & Hrun & _ & Hlog & Herr & Hinfo & Hwarn).
  eexists _, w. rewrite for_companies_pairs. split; [exact Hrun|].
  rewrite record_all_created, record_all_failed. simpl in Hlog |- *. rewrite Hlog.
  assert (length (fetch_pairs companies apis) = length companies * length apis) as Hpairs.
  { unfold fetch_pairs. apply length_prod. }
  rewrite <- Hpairs. done.
Qed.

End MoreRunResult.

Lemma log_tells_the_run_result_witness :
  ∃ (st : Staged) (w : World),
    fetch_all example_config flaky_client "TestSE" ["A"; "B"] ["X"] nothing_yet
    = Returned st w
    ∧ level_count ERROR (log w) = length (failed (results st))
    ∧ level_count INFO (log w)
      = length ["A"; "B"] * length ["X"] + length (created (results st))
    ∧ (level_count WARNING (log w) ≤ length ["A"; "B"] * length ["X"])%nat.
Proof.
  apply (log_tells_the_run_result example_config flaky_client "TestSE" ["A"; "B"] ["X"]).
  reflexivity.
Defined.

(** ** The staged sheets *)

Lemma stage_lookup (staged : gmap string DataFrame) (new : list (string * DataFrame))
    (name : string) :
  foldl stage staged new !! name
  = match last (filter (λ sheet, sheet.1 = name) new) with
    | Some sheet => Some sheet.2
    | None => staged !! name
    end.
Proof.
  revert staged. induction new as [|[k df] new IH]; intros staged; [done|].
  simpl. rewrite IH. change (stage staged (k, df)) with (<[k:=df]> staged).
  destruct (decide (k = name)) as [->|Hne].
  - rewrite filter_cons_True by done. rewrite last_cons.
    destruct (last (filter _ new)); [done|]. simpl. apply lookup_insert_eq.
  - rewrite filter_cons_False by done.
    destruct (last (filter _ new)); [done|]. by apply lookup_insert_ne.
Qed.

Lemma stage_untouched (staged : gmap string DataFrame) (new : list (string * DataFrame))
    (name : string) :
  name ∉ new.*1 → foldl stage staged new !! name = staged !! name.
Proof.
  revert staged. induction new as [|[k df] new IH]; intros staged Hnot; [done|].
  csimpl in *. apply not_elem_of_cons in Hnot as [Hne Hnot].
  rewrite IH by done. unfold stage. simpl. by apply lookup_insert_ne.
Qed.

Lemma stage_keeps (staged : gmap string DataFrame) (new : list (string * DataFrame))
    (name : string) (df : DataFrame) :
  NoDup new.*1 → (name, df) ∈ new → foldl stage staged new !! name = Some df.
Proof.
  revert staged. induction new as [|[k v] new IH]; intros staged Hdistinct Hin.
  - by apply elem_of_nil in Hin.
  - csimpl in *. apply NoDup_cons in Hdistinct as [Hfresh Hdistinct].
    apply elem_of_cons in Hin as [[= <- <-]|Hin].
    + rewrite stage_untouched by done. unfold stage. simpl. apply lookup_insert_eq.
    + by apply IH.
Qed.

Lemma collisions_distinct (seen names : list string) :
  NoDup names → (∀ name, name ∈ names → name ∉ seen) → collisions seen names = 0.
Proof.
  revert seen. induction names as [|name names IH]; intros seen Hdistinct Hfresh; [done|].
  apply NoDup_cons in Hdistinct as [Hnew Hdistinct]. simpl.
  rewrite bool_decide_eq_false_2 by (apply Hfresh; by left).
  rewrite IH; [done|done|].
  intros n Hn. apply not_elem_of_cons. split.
  - intros ->. done.
  - apply Hfresh. by right.
Qed.

Lemma staged_names_sublist (os : list (string * string * (fetch_error + DataFrame))) :
  (omap staged_sheet os).*1 `sublist_of` sheet_of <$> os.*1.
Proof.
  induction os as [|[p [e|df]] os IH]; csimpl; [done|..].
  - by apply sublist_cons.
  - by apply sublist_skip.
Qed.

Lemma staged_sheet_elem_of (os : list (string * string * (fetch_error + DataFrame)))
    (p : string * string) (df : DataFrame) :
  (p, inr df) ∈ os → (sheet_of p, df) ∈ omap staged_sheet os.
Proof. intros Hin. apply list_elem_of_omap. by exists (p, inr df). Qed.

Section MoreWorkbook.
Context (config : Config) (ext : Externals).
Context (environment_name : string) (companies apis : list string).

(** X8. The sheet under a name holds the table of the last pair that
    succeeded with that name: a later pair replaces the table of an earlier
    one without a trace, and a name no succeeded pair has is not there. *)
Theorem later_table_replaces_earlier :
  has_connection config = true →
  ∃ (st : Staged) (w : World),
    fetch_all config ext environment_name companies apis nothing_yet = Returned st w
    ∧ ∀ name,
        sheets st !! name
        = snd <$> last (filter (λ sheet, sheet.1 = name)
                          (omap staged_sheet
                             (outcomes config ext environment_name 0
                                (fetch_pairs companies apis)))).
Proof.
  intros Hconn.
  destruct (fetch_all_outcomes config ext environment_name companies apis nothing_yet Hconn)
    as (w & Hrun & _).
  eexists _, w. split; [exact Hrun|]. intros name.
  rewrite record_all_sheets, stage_lookup. simpl.
  by destruct (last _).
Qed.

(** X9. Every name under which the loop stages a sheet fits the workbook and
    is not empty: between 2 and 31 characters, none of them forbidden, and it
    is the name derived from one of the pairs. *)
Theorem staged_names_fit :
  has_connection config = true →
  ∃ (st : Staged) (w : World),
    fetch_all config ext environment_name companies apis nothing_yet = Returned st w
    ∧ ∀ name df, sheets st !! name = Some df →
        (2 ≤ String.length name ≤ 31)%nat
        ∧ Forall (λ ch, ch ∉ forbidden) (PyStr.chars name)
        ∧ ∃ p, p ∈ fetch_pairs companies apis ∧ name = sheet_of p.
Proof.
  intros Hconn.
  destruct (fetch_all_outcomes config ext environment_name companies apis nothing_yet Hconn)
    as (w & Hrun & _).
  eexists _, w. split; [exact Hrun|]. intros name df.
  rewrite record_all_sheets, stage_lookup. simpl.
  destruct (last _) as [[k v]|] eqn:Hlast; [|by rewrite lookup_empty].
  intros _. apply last_Some_elem_of, list_elem_of_filter in Hlast as [Hname Hin].
  simpl in Hname. subst k.
  apply list_elem_of_omap in Hin as ([p r] & Hin & Hsheet).
  unfold staged_sheet in Hsheet. simpl in Hsheet. destruct r as [e|df']; [done|].
  injection Hsheet as <- <-.
  destruct (sheet_of_fits p) as [Hlen Hok]. split_and!; [lia|lia|done|].
  exists p. split; [|done].
  rewrite <- (outcomes_pairs config ext environment_name (length (requests nothing_yet))
                (fetch_pairs companies apis)).
  by apply (list_elem_of_fmap_2 fst) in Hin.
Qed.

(** X10. When the pairs have sheet names that differ from one another, no
    table is lost: every pair that succeeds has its own table under its own
    name, and there are as many sheets as created entries. *)
Theorem distinct_names_keep_every_table :
  has_connection config = true →
  NoDup (sheet_of <$> fetch_pairs companies apis) →
  ∃ (st : Staged) (w : World),
    fetch_all config ext environment_name companies apis nothing_yet = Returned st w
    ∧ size (sheets st) = length (created (results st))
    ∧ ∀ p df,
        (p, inr df) ∈ outcomes config ext environment_name 0 (fetch_pairs companies apis) →
        sheets st !! sheet_of p = Some df.
Proof.
  intros Hconn Hdistinct.
  destruct (fetch_all_outcomes config ext environment_name companies apis nothing_yet Hconn)
    as (w & Hrun & _).
  eexists _, w. split; [exact Hrun|]. simpl.
  remember (outcomes config ext environment_name 0 (fetch_pairs companies apis))
    as os eqn:Hos.
  assert (NoDup (omap staged_sheet os).*1) as Hnames.
  { eapply sublist_NoDup; [|apply staged_names_sublist].
    subst os. by rewrite outcomes_pairs. }
  rewrite record_all_sheets, record_all_created. simpl. split.
  - pose proof (stage_size [] ∅ (omap staged_sheet os)) as Hsize.
    rewrite map_size_empty, collisions_distinct in Hsize; [..|done|].
    + rewrite <- length_staged. rewrite Nat.add_0_r in Hsize. apply Hsize.
      intros name. rewrite lookup_empty, elem_of_nil. split; [done|]. by intros [? ?].
    + intros name _. apply not_elem_of_nil.
  - intros p df Hin. apply stage_keeps; [done|]. by apply staged_sheet_elem_of.
Qed.

End MoreWorkbook.

Lemma later_table_replaces_earlier_witness :
  ∃ (st : Staged) (w : World),
    fetch_all example_config example_client "TestSE" ["A"; "B"] ["X"] nothing_yet
    = Returned st w
    ∧ ∀ name,
        sheets st !! name
        = snd <$> last (filter (λ sheet, sheet.1 = name)
                          (omap staged_sheet
                             (outcomes example_config example_client "TestSE" 0
                                (fetch_pairs ["A"; "B"] ["X"])))).
Proof.
  apply (later_table_replaces_earlier example_config example_client "TestSE"
           ["A"; "B"] ["X"]).
  reflexivity.
Defined.

Lemma staged_names_fit_witness :
  ∃ (st : Staged) (w : World),
    fetch_all example_config example_client "TestSE" ["A"; "B"] ["X"] nothing_yet
    = Returned st w
    ∧ ∀ name df, sheets st !! name = Some df →
        (2 ≤ String.length name ≤ 31)%nat
        ∧ Forall (λ ch, ch ∉ forbidden) (PyStr.chars name)
        ∧ ∃ p, p ∈ fetch_pairs ["A"; "B"] ["X"] ∧ name = sheet_of p.
Proof.
  apply (staged_names_fit example_config example_client "TestSE" ["A"; "B"] ["X"]).
  reflexivity.
Defined.

Lemma distinct_names_keep_every_table_witness :
  ∃ (st : Staged) (w : World),
    fetch_all example_config flaky_client "TestSE" ["A"; "B"] ["X"] nothing_yet
    = Returned st w
    ∧ size (sheets st) = length (created (results st))
    ∧ ∀ p df,
        (p, inr df) ∈ outcomes example_config flaky_client "TestSE" 0
                        (fetch_pairs ["A"; "B"] ["X"]) →
        sheets st !! sheet_of p = Some df.
Proof.
  apply (distinct_names_keep_every_table example_config flaky_client "TestSE"
           ["A"; "B"] ["X"]).
  - reflexivity.
  - apply (bool_decide_unpack _). vm_compute. reflexivity.
Defined.

(** ** A response of the expected shape *)

Lemma as_dicts_length (items : list json) (dicts : list (list (string * json))) :
  as_dicts items = Some dicts → length dicts = length items.
Proof.
  revert dicts. induction items as [|item items IH]; intros dicts; simpl.
  - by intros [= <-].
  - destruct item; try done.
    destruct (as_dicts items) as [rest|]; [|done]. simpl.
    intros [= <-]. simpl. by rewrite (IH rest).
Qed.

Lemma first_seen_nil (labels : list string) : first_seen [] labels = [] → labels = [].
Proof. destruct labels as [|x labels]; [done|]. simpl. done. Qed.

Lemma no_field_at_all (dicts : list (list (string * json))) :
  concat (map (λ r, r.*1) dicts) = [] → Forall (λ d, d = []) dicts.
Proof.
  induction dicts as [|d dicts IH]; simpl; [by constructor|].
  intros Hnil. apply app_eq_nil in Hnil as [Hd Hrest].
  constructor; [by destruct d | by apply IH].
Qed.

Lemma frame_without_fields (dicts : list (list (string * json))) :
  Forall (λ d, d = []) dicts → df_len (frame_of_dicts dicts) = 0.
Proof.
  intros Hempty. unfold df_len, frame_of_dicts. simpl.
  replace (concat (map (λ r, r.*1) dicts)) with (@nil string); [done|].
  induction Hempty as [|d dicts -> _ IH]; simpl; done.
Qed.

Lemma frame_with_a_field (dicts : list (list (string * json))) :
  (∃ d, d ∈ dicts ∧ d ≠ []) → df_len (frame_of_dicts dicts) = length dicts.
Proof.
  intros (d & Hin & Hfield). unfold df_len, frame_of_dicts. simpl.
  destruct (first_seen [] (concat (map (λ r, r.*1) dicts))) as [|c cols] eqn:Hcols.
  - apply first_seen_nil, no_field_at_all in Hcols.
    rewrite Forall_forall in Hcols. by destruct (Hfield (Hcols d Hin)).
  - by rewrite length_map.
Qed.

Section ExpectedShape.
Context (config : Config) (ext : Externals).
Context (environment_name env_label : string).

(** X11. A body that is a mapping with a list of mappings under ["value"]
    never fails the pair: the pair is created and its sheet is staged, the
    placeholder table when there is no record; the table has one row per
    record when some record has a field, and no row when no record has one;
    and the last line logged gives the number of rows of the table. *)
Theorem records_become_a_sheet (company api_name : string) (st : Staged) (w : World)
    (entries : list (string * json)) (items : list json)
    (dicts : list (list (string * json))) :
  has_connection config = true →
  api_get ext (length (requests w)) (url_of config environment_name (company, api_name))
  = inr (JDict entries) →
  dict_get "value" entries = Some (JList items) →
  as_dicts items = Some dicts →
  ∃ (st' : Staged) (w' : World) (df : DataFrame),
    fetch_pair config ext environment_name env_label company api_name st w
    = Returned st' w'
    ∧ sheets st' = <[sheet_of (company, api_name) := df]> (sheets st)
    ∧ created (results st') = created (results st) ++ [entry_of (company, api_name)]
    ∧ failed (results st') = failed (results st)
    ∧ (items = [] → df = placeholder_table)
    ∧ ((∃ d, d ∈ dicts ∧ d ≠ []) → df_len df = length items)
    ∧ (Forall (λ d, d = []) dicts → df_len df = 0)
    ∧ last (log w')
      = Some (INFO, ("[" +:+ env_label +:+ "/" +:+ company +:+ "/" +:+ api_name +:+ "]")
                    +:+ " Retrieved " +:+ PyStr.of_nat (df_len df) +:+ " rows").
Proof.
  intros Hconn Hget Hvalue Hdicts. unfold fetch_pair, bind.
  pose proof (build_bc_url_connected config environment_name (company, api_name) Hconn)
    as Hurl.
  simpl in Hurl. rewrite Hurl. simpl. rewrite Hget. unfold coerce_records.
  rewrite Hvalue. simpl.
  unfold _to_dataframe. destruct items as [|item items].
  - simpl. eexists _, _, _. split; [reflexivity|]. simpl.
    split_and!; try done. by rewrite last_snoc.
  - change (negb (truthy (JList (item :: items)))) with false. cbv iota.
    unfold from_records. rewrite Hdicts.
    eexists _, _, _. split; [reflexivity|].
    pose proof (as_dicts_length _ _ Hdicts) as Hlen.
    cbn [sheets results created failed created_append log].
    split_and!; try done.
    + intros Hfield. rewrite <- Hlen. by apply frame_with_a_field.
    + apply frame_without_fields.
    + by rewrite last_snoc.
Qed.

End ExpectedShape.

Lemma records_become_a_sheet_witness :
  ∃ (st' : Staged) (w' : World) (df : DataFrame),
    fetch_pair example_config example_client "TestSE" "Test" "TXO" "IntercompanyPartner"
      {| results := no_results; sheets := ∅ |} nothing_yet
    = Returned st' w'
    ∧ sheets st' = <[sheet_of ("TXO", "IntercompanyPartner") := df]> ∅
    ∧ created (results st') = [] ++ [entry_of ("TXO", "IntercompanyPartner")]
    ∧ failed (results st') = []
    ∧ ([JDict [("id", JNum 1)]; JDict [("id", JNum 2)]] = [] → df = placeholder_table)
    ∧ ((∃ d, d ∈ [[("id", JNum 1)]; [("id", JNum 2)]] ∧ d ≠ []) →
       df_len df = length [JDict [("id", JNum 1)]; JDict [("id", JNum 2)]])
    ∧ (Forall (λ d, d = []) [[("id", JNum 1)]; [("id", JNum 2)]] → df_len df = 0)
    ∧ last (log w')
      = Some (INFO, ("[" +:+ "Test" +:+ "/" +:+ "TXO" +:+ "/" +:+ "IntercompanyPartner" +:+ "]")
                    +:+ " Retrieved " +:+ PyStr.of_nat (df_len df) +:+ " rows").
Proof.
  apply (records_become_a_sheet example_config example_client "TestSE" "Test"
           "TXO" "IntercompanyPartner" {| results := no_results; sheets := ∅ |} nothing_yet
           [("value", JList [JDict [("id", JNum 1)]; JDict [("id", JNum 2)]])]
           [JDict [("id", JNum 1)]; JDict [("id", JNum 2)]]
           [[("id", JNum 1)]; [("id", JNum 2)]]);
    reflexivity.
Defined.

(** A record without a field alone leaves a sheet without column or row. *)
Example record_without_field :
  _to_dataframe example_client (JList [JDict []]) = inr {| columns := []; rows := [] |}.
Proof. reflexivity. Qed.

(** ** How a run ends *)

Section Endings.
Context (config : Config) (ext : Externals).

(** X13. When a run returns, exactly one summary is saved, under a file name
    made of the time stamp; it names the configured companies and resources
    and the workbook's file, its created and failed lists together have one
    entry per pair, as many as there were requests, and the status line, the
    last line logged, is the one of these two lists. *)
Theorem completed_run_accounts_for_every_pair (w : World) :
  main config ext nothing_yet = Returned tt w →
  ∃ (environment_name excel_filename : string) (companies apis : list string)
    (record : Summary),
    read_settings config = inr (environment_name, companies, apis, excel_filename)
    ∧ saved w = [("bc-fetch-summary_" +:+ get_utc_timestamp ext +:+ ".json", record)]
    ∧ sum_environment_name record = environment_name
    ∧ sum_companies record = companies
    ∧ sum_apis record = apis
    ∧ sum_excel_file record = path_name (get_path ext excel_filename)
    ∧ length (sum_created record) + length (sum_failed record)
      = length companies * length apis
    ∧ length (requests w) = length companies * length apis
    ∧ last (log w)
      = Some (INFO, summary {| created := sum_created record; updated := [];
                               failed := sum_failed record; expected_errors := 0 |}).
Proof.
  intros Hmain.
  destruct (read_settings config) as [e|[[[env cs] rs] f]] eqn:Hsettings.
  { unfold main, bind, lift in Hmain. by rewrite Hsettings in Hmain. }
  destruct (decide (cs = [])) as [->|Hcompanies].
  { unfold main, bind, lift in Hmain. by rewrite Hsettings in Hmain. }
  destruct (decide (rs = [])) as [->|Hapis].
  { unfold main, bind, lift in Hmain. rewrite Hsettings in Hmain.
    simpl in Hmain. by destruct cs. }
  destruct (has_connection config) eqn:Hconn.
  2:{ destruct (missing_connection_is_KeyError config ext env f cs rs
                  Hsettings Hcompanies Hapis Hconn) as [key Hkey].
      by rewrite Hkey in Hmain. }
  destruct (fetch_all_outcomes config ext env cs rs nothing_yet Hconn)
    as (w1 & Hrun & Hreq & _ & Hsaved).
  rewrite (main_after_fetch config ext env f cs rs _ w1 Hsettings Hcompanies Hapis Hrun)
    in Hmain.
  destruct (excel_write ext _ _); [done|]. injection Hmain as <-.
  simpl in Hreq, Hsaved |- *.
  set (os := outcomes config ext env 0 (fetch_pairs cs rs)) in *.
  set (st := record_all os {| results := no_results; sheets := ∅ |}).
  destruct (record_all_untouched os {| results := no_results; sheets := ∅ |})
    as [Hupdated Hexpected].
  fold st in Hupdated, Hexpected. simpl in Hupdated, Hexpected.
  assert (length (fetch_pairs cs rs) = length cs * length rs) as Hpairs.
  { unfold fetch_pairs. apply length_prod. }
  eexists env, f, cs, rs, _. split; [done|]. rewrite Hsaved. simpl.
  split_and!; try done.
  - unfold summary_of. simpl. unfold st.
    rewrite record_all_created, record_all_failed. simpl.
    rewrite created_or_failed. unfold os. by rewrite length_outcomes.
  - by rewrite Hreq, length_map.
  - rewrite last_snoc. do 2 f_equal. unfold summary_of. simpl.
    destruct (results st) as [c u fl x]. simpl in *. by subst.
Qed.

End Endings.

Lemma completed_run_accounts_for_every_pair_witness :
  ∃ (environment_name excel_filename : string) (companies apis : list string)
    (record : Summary),
    read_settings example_config
    = inr (environment_name, companies, apis, excel_filename)
    ∧ saved (world_of (main example_config timeout_client nothing_yet))
      = [("bc-fetch-summary_" +:+ get_utc_timestamp timeout_client +:+ ".json", record)]
    ∧ sum_environment_name record = environment_name
    ∧ sum_companies record = companies
    ∧ sum_apis record = apis
    ∧ sum_excel_file record = path_name (get_path timeout_client excel_filename)
    ∧ length (sum_created record) + length (sum_failed record)
      = length companies * length apis
    ∧ length (requests (world_of (main example_config timeout_client nothing_yet)))
      = length companies * length apis
    ∧ last (log (world_of (main example_config timeout_client nothing_yet)))
      = Some (INFO, summary {| created := sum_created record; updated := [];
                               failed := sum_failed record; expected_errors := 0 |}).
Proof.
  apply (completed_run_accounts_for_every_pair example_config timeout_client
           (world_of (main example_config timeout_client nothing_yet))).
  vm_compute. reflexivity.
Defined.


(** ** Edges of the normalizer and of the name derivation *)

Section Edges.
Context (config : Config) (ext : Externals).
Context (environment_name env_label : string).

(** X14. A ["value"] entry that is not null but has the truth value false
    (zero, false, an empty string, an empty mapping, an empty list) counts as
    no record: the pair is created with the placeholder table, and nothing
    but the request and the zero rows is logged, no warning about the
    response. *)
Theorem falsy_value_entry_is_an_empty_sheet (company api_name : string) (st : Staged)
    (w : World) (entries : list (string * json)) (v : json) :
  has_connection config = true →
  api_get ext (length (requests w)) (url_of config environment_name (company, api_name))
  = inr (JDict entries) →
  dict_get "value" entries = Some v →
  v ≠ JNull →
  truthy v = false →
  ∃ (st' : Staged) (w' : World),
    fetch_pair config ext environment_name env_label company api_name st w
    = Returned st' w'
    ∧ sheets st' = <[sheet_of (company, api_name) := placeholder_table]> (sheets st)
    ∧ created (results st') = created (results st) ++ [entry_of (company, api_name)]
    ∧ failed (results st') = failed (results st)
    ∧ log w'
      = log w
        ++ [(INFO, ("[" +:+ env_label +:+ "/" +:+ company +:+ "/" +:+ api_name +:+ "]")
                   +:+ " GET " +:+ url_of config environment_name (company, api_name));
            (INFO, ("[" +:+ env_label +:+ "/" +:+ company +:+ "/" +:+ api_name +:+ "]")
                   +:+ " Retrieved 0 rows")].
Proof.
  intros Hconn Hget Hvalue Hnull Hfalsy. unfold fetch_pair, bind.
  pose proof (build_bc_url_connected config environment_name (company, api_name) Hconn)
    as Hurl.
  simpl in Hurl. rewrite Hurl. simpl. rewrite Hget.
  assert (coerce_records (JDict entries) = (v, false)) as ->.
  { unfold coerce_records. rewrite Hvalue. simpl. by destruct v. }
  simpl. unfold _to_dataframe. rewrite Hfalsy. simpl.
  eexists _, _. split; [reflexivity|]. simpl.
  split_and!; try done. by rewrite <- app_assoc.
Qed.

End Edges.

Lemma falsy_value_entry_is_an_empty_sheet_witness :
  ∃ (st' : Staged) (w' : World),
    fetch_pair example_config zero_value_client "TestSE" "Test" "TXO" "Items"
      {| results := no_results; sheets := ∅ |} nothing_yet
    = Returned st' w'
    ∧ sheets st' = <[sheet_of ("TXO", "Items") := placeholder_table]> ∅
    ∧ created (results st') = [] ++ [entry_of ("TXO", "Items")]
    ∧ failed (results st') = []
    ∧ log w'
      = [] ++ [(INFO, ("[" +:+ "Test" +:+ "/" +:+ "TXO" +:+ "/" +:+ "Items" +:+ "]")
                      +:+ " GET " +:+ url_of example_config "TestSE" ("TXO", "Items"));
               (INFO, ("[" +:+ "Test" +:+ "/" +:+ "TXO" +:+ "/" +:+ "Items" +:+ "]")
                      +:+ " Retrieved 0 rows")].
Proof.
  apply (falsy_value_entry_is_an_empty_sheet example_config zero_value_client
           "TestSE" "Test" "TXO" "Items" {| results := no_results; sheets := ∅ |}
           nothing_yet [("value", JNum 0)] (JNum 0));
    [reflexivity | reflexivity | reflexivity | discriminate | reflexivity].
Defined.

(** X15. A sheet name is made of characters of the name it is derived from,
    in their order: the derivation drops characters and keeps the rest as
    they stand. *)
Theorem safe_sheet_name_keeps_order (name : string) :
  PyStr.chars (_safe_sheet_name name) `sublist_of` PyStr.chars name.
Proof.
  rewrite safe_sheet_name_chars, PyStrFacts.chars_join. unfold cleaned_chars.
  etrans; [apply sublist_take | apply sublist_filter].
Qed.
